(** * A shallow embedding of stocktrendllm

    The Python sources modelled here:
    - [src/utils/helpers.py]: [format_analysis_output], [create_sample_data];
    - [src/mcp/vantage_client.py]: module body, [VantageMCPServer] with
      [get_stock_data] and [get_technical_indicators];
    - [src/main.py]: [StockAnalysisApp.analyze_stock];
    - [app.py]: [StreamlitStockApp.setup_sidebar], [run_analysis],
      [display_trend_analysis] and [run];
    - [run_app.py]: [main].

    Python effects are threaded through a small state and exception monad
    [PY]: the world holds the global [random] generator (the stream of values
    it hands to successive calls), the wall clock, a log of observable events
    (sleeps, HTTP requests, prints, UI messages), the answers of the network
    and how spawned processes end (their return code, or an exception raised while waiting). *)

From Stdlib Require Import ZArith QArith List String Bool Lia Sorted.
Import ListNotations.
Open Scope string_scope.
Open Scope Z_scope.
#[local] Set Warnings "-register-all".

(** ** Python exceptions *)

(** The exception classes the modelled code can meet.  [requests]' own
    exceptions all derive from [requests.exceptions.RequestException];
    [KeyboardInterrupt], [SystemExit] and [asyncio.CancelledError] (since
    Python 3.8) derive from [BaseException] but not from [Exception]. *)
Inductive exc_class :=
| ValueError
| TypeError
| NameError
| ImportError
| KeyError
| ReqConnectionError
| ReqTimeout
| ReqJSONDecodeError
| KeyboardInterrupt
| SystemExit
| CancelledError.

Definition is_Exception (c : exc_class) : bool :=
  match c with
  | KeyboardInterrupt | SystemExit | CancelledError => false
  | _ => true
  end.

Definition is_RequestException (c : exc_class) : bool :=
  match c with
  | ReqConnectionError | ReqTimeout | ReqJSONDecodeError => true
  | _ => false
  end.

Record exn := mkExn { exc_cls : exc_class; exc_msg : string }.

(** [str(e)] of an exception raised with one message argument. *)
Definition exc_str (e : exn) : string := exc_msg e.

Inductive outcome (A : Type) :=
| Ret (a : A)
| Raise (e : exn).
Arguments Ret {A} a.
Arguments Raise {A} e.

(** ** The world and the monad *)

(** A JSON document as [response.json()] parses it. *)
Inductive json :=
| JNull
| JBool (b : bool)
| JNum (n : Z)
| JStr (s : string)
| JList (l : list json)
| JObj (kvs : list (string * json)).

(** The body of a response, as [response.json()] sees it: a JSON document,
    or a text that does not parse, with the message of the
    [JSONDecodeError] its parsing raises (for an empty body, "Expecting
    value: line 1 column 1 (char 0)"). *)
Inductive response_body :=
| BodyJson (j : json)
| BodyNotJson (decode_error : string).

(** What [requests.post] yields: a response, or a raised exception. *)
Inductive http_outcome :=
| HttpResp (status_code : Z) (body : response_body)
| HttpFail (c : exc_class) (msg : string).

Inductive event :=
| EvSleep (seconds : Z)
| EvPost (url : string)
| EvPrint (line : string)
| EvSidebarError (msg : string)
| EvAnalyze (symbol : string)
| EvError (msg : string)
| EvSpawn (argv : list string).

(** How [subprocess.run] ends: the child terminated with a return code
    (negative [-N] when a signal [N] killed it alone), or the wait raised in
    the calling process.  Ctrl-C in the terminal reaches the whole process
    group: [subprocess.run] then kills the child and re-raises the
    [KeyboardInterrupt]. *)
Inductive spawn_outcome :=
| SpawnExit (returncode : Z)
| SpawnRaise (c : exc_class) (msg : string).

Record world := mkWorld {
  w_draws : nat -> Z;             (* values of the global [random] generator *)
  w_pos : nat;                    (* how many of them were consumed *)
  w_now : Z;                      (* [datetime.now()], as a day ordinal *)
  w_log : list event;             (* newest event first *)
  w_net : string -> http_outcome; (* answer of [requests.post] per URL *)
  w_spawn : list string -> spawn_outcome (* how a spawned command ends *)
}.

Definition PY (A : Type) := world -> outcome A * world.

Definition ret {A} (a : A) : PY A := fun w => (Ret a, w).

Definition bind {A B} (m : PY A) (k : A -> PY B) : PY B :=
  fun w => match m w with
           | (Ret a, w') => k a w'
           | (Raise e, w') => (Raise e, w')
           end.

Definition raise {A} (c : exc_class) (msg : string) : PY A :=
  fun w => (Raise (mkExn c msg), w).

Notation "x <- m ;; k" := (bind m (fun x => k))
  (at level 61, m at next level, right associativity).
Notation "m ;;; k" := (bind m (fun _ => k))
  (at level 61, right associativity).

Definition emit (ev : event) : PY unit :=
  fun w => (Ret tt, mkWorld (w_draws w) (w_pos w) (w_now w) (ev :: w_log w)
                            (w_net w) (w_spawn w)).

Definition now : PY Z := fun w => (Ret (w_now w), w).

(** One value of the global generator. *)
Definition draw : PY Z :=
  fun w => (Ret (w_draws w (w_pos w)),
            mkWorld (w_draws w) (S (w_pos w)) (w_now w) (w_log w)
                    (w_net w) (w_spawn w)).

(** ** The [random] module *)

(** [random.random()] returns [k / 2^53] for a 53-bit integer [k]; prices
    are kept exactly, as integers in units of [2^-53] ([UNIT] units make 1).
    Floating-point rounding of the sums below is not modelled. *)
Definition UNIT : Z := 2 ^ 53.

Definition random_k : PY Z := r <- draw ;; ret (r mod UNIT).

(** [random.randint(a, b)]: [a + randbelow(b - a + 1)]. *)
Definition randint (a b : Z) : PY Z := r <- draw ;; ret (a + r mod (b - a + 1)).

(** [random.uniform(a, b) = a + (b - a) * random()], in units. *)
Definition uniform (a b : Z) : PY Z :=
  k <- random_k ;; ret (a * UNIT + (b - a) * k).

(** [round(x, 2)] of a value in units, as an integer number of hundredths:
    round half to even of [x * 100 / UNIT]. *)
Definition round2 (x : Z) : Z :=
  let q := (x * 100) / UNIT in
  let r := (x * 100) mod UNIT in
  if 2 * r <? UNIT then q
  else if UNIT <? 2 * r then q + 1
  else if Z.even q then q else q + 1.

(** ** Dates *)

(** A date is its proleptic Gregorian ordinal ([date.toordinal()]);
    [date.weekday()] is [0] on Monday, and the ordinal 1 (0001-01-01) is a
    Monday.  Adding [timedelta(days=i)] adds [i]. *)
Definition weekday (d : Z) : Z := (d + 6) mod 7.

(** ** [create_sample_data] (helpers.py) *)

(** One entry of [data_points]; prices in hundredths (as rounded by
    [round(_, 2)]).  The source stores [date.strftime("%Y-%m-%d")]; the
    model keeps the ordinal it prints. *)
Record point := mkPoint {
  pt_date : Z;
  pt_open : Z;
  pt_high : Z;
  pt_low : Z;
  pt_close : Z;
  pt_volume : Z;
  pt_adjusted_close : Z
}.

Record sample_data (P : Type) := mkSample {
  sd_symbol : string;
  sd_period : P;
  sd_data : list point
}.
Arguments mkSample {P}.
Arguments sd_symbol {P}.
Arguments sd_period {P}.
Arguments sd_data {P}.

(** The body of the loop for a kept (weekday) [date]; [base_price] is an
    integer number of currency units. *)
Definition sample_point (base_price date : Z) : PY point :=
  u_open <- uniform (-2) 2 ;;
  let open_price := base_price * UNIT + u_open in
  u_close <- uniform (-5) 5 ;;
  let close_price := open_price + u_close in
  u_high <- uniform 0 3 ;;
  let high_price := Z.max open_price close_price + u_high in
  u_low <- uniform 0 3 ;;
  let low_price := Z.min open_price close_price - u_low in
  volume <- randint 1000000 5000000 ;;
  ret (mkPoint date (round2 open_price) (round2 high_price) (round2 low_price)
               (round2 close_price) volume (round2 close_price)).

(** [for i in range(250): date = current_date + timedelta(days=i);
    if date.weekday() < 5: ... data_points.append(...)] *)
Fixpoint sample_loop (base_price : Z) (dates : list Z) : PY (list point) :=
  match dates with
  | [] => ret []
  | date :: rest =>
      if weekday date <? 5 then
        p <- sample_point base_price date ;;
        ps <- sample_loop base_price rest ;;
        ret (p :: ps)
      else sample_loop base_price rest
  end.

Definition loop_dates (current_date : Z) : list Z :=
  map (fun i => current_date + Z.of_nat i) (seq 0 250).

Definition create_sample_data {P} (symbol : string) (period : P)
  : PY (sample_data P) :=
  r <- randint (-20) 20 ;;
  let base_price := 100 + r in
  today <- now ;;
  let current_date := today - 365 in
  data_points <- sample_loop base_price (loop_dates current_date) ;;
  ret (mkSample symbol period data_points).

(** ** Printing integers *)

Fixpoint digits_of (fuel : nat) (n : Z) (acc : string) : string :=
  match fuel with
  | O => acc
  | S f =>
      let acc' := String (Ascii.ascii_of_nat (48 + Z.to_nat (n mod 10))) acc in
      if n <? 10 then acc' else digits_of f (n / 10) acc'
  end.

(** [str(n)] of a Python [int]. *)
Definition z_str (n : Z) : string :=
  if n <? 0 then "-" ++ digits_of 64 (- n) "" else digits_of 64 n "".

(** ** Python control flow *)

(** [try: body except C as e: handler(e)], where [catches] tells which
    classes are subclasses of [C]. *)
Definition try_except {A} (body : PY A) (catches : exc_class -> bool)
  (handler : exn -> PY A) : PY A :=
  fun w => match body w with
           | (Raise e, w') =>
               if catches (exc_cls e) then handler e w' else (Raise e, w')
           | r => r
           end.

Definition print (line : string) : PY unit := emit (EvPrint line).

(** ** The data model (src/models/schemas.py) *)

(** Modelled from the spec: [src/models/schemas.py] is not among the
    sources; §3 gives [TimePeriod] as the closed set
    [1d, 1w, 1m, 3m, 6m, 1y, 2y, 5y] and [StockRequest] as a symbol, a
    period and two optional ISO-8601 date strings. *)
Inductive time_period := P1d | P1w | P1m | P3m | P6m | P1y | P2y | P5y.

Definition time_period_value (p : time_period) : string :=
  match p with
  | P1d => "1d" | P1w => "1w" | P1m => "1m" | P3m => "3m"
  | P6m => "6m" | P1y => "1y" | P2y => "2y" | P5y => "5y"
  end.

(** Modelled from the spec: [TimePeriod(value)] returns the member with
    that value and raises [ValueError] for any other string (§4.2). *)
Definition TimePeriod (v : string) : PY time_period :=
  match find (fun p => String.eqb (time_period_value p) v)
             [P1d; P1w; P1m; P3m; P6m; P1y; P2y; P5y] with
  | Some p => ret p
  | None => raise ValueError ("'" ++ v ++ "' is not a valid TimePeriod")
  end.

Record stock_request := mkStockRequest {
  sr_symbol : string;
  sr_period : time_period;
  sr_start_date : option string;
  sr_end_date : option string
}.

(** ** config.py *)

Record config := mkConfig {
  MCP_SERVER_URL : string;   (* os.getenv("MCP_SERVER_URL", "mock") *)
  MCP_API_KEY : string       (* os.getenv("MCP_API_KEY", "demo-key") *)
}.

(** ** [VantageMCPServer] (src/mcp/vantage_client.py) *)

Record vantage := mkVantage {
  base_url : string;
  headers : list (string * string);
  use_mock_data : bool
}.

Definition VantageMCPServer_init (cfg : config) : vantage :=
  mkVantage (MCP_SERVER_URL cfg)
    [("Content-Type", "application/json");
     ("Authorization", "Bearer " ++ MCP_API_KEY cfg)]
    (String.eqb (MCP_SERVER_URL cfg) "mock").

(** The [Dict[str, Any]] that [get_stock_data] returns: the parsed body of
    the provider's answer, or the dict built by [create_sample_data]. *)
Inductive stock_payload :=
| PJson (j : json)
| PSample (s : sample_data time_period).

(** [requests.post(url, ..., timeout=30)]: one request to the network. *)
Definition requests_post (url : string) : PY (Z * response_body) :=
  emit (EvPost url) ;;;
  fun w => match w_net w url with
           | HttpResp s b => (Ret (s, b), w)
           | HttpFail c m => (Raise (mkExn c m), w)
           end.

(** [response.json()]: an unparsable body raises
    [requests.exceptions.JSONDecodeError]. *)
Definition response_json (body : response_body) : PY json :=
  match body with
  | BodyJson j => ret j
  | BodyNotJson decode_error => raise ReqJSONDecodeError decode_error
  end.

Definition get_stock_data (self : vantage) (stock_request : stock_request)
  : PY stock_payload :=
  let sample := s <- create_sample_data (sr_symbol stock_request)
                                        (sr_period stock_request) ;;
                ret (PSample s) in
  if use_mock_data self then
    emit (EvSleep 1) ;;;
    sample
  else
    try_except
      (resp <- requests_post (base_url self ++ "/stock/data") ;;
       let (status_code, body) := resp in
       if status_code =? 200 then
         j <- response_json body ;; ret (PJson j)
       else
         print ("MCP Server error, using mock data: " ++ z_str status_code) ;;;
         sample)
      is_RequestException
      (fun e =>
         print ("MCP Server connection failed, using mock data: " ++ exc_str e) ;;;
         sample).

(** ** Python values and dicts *)

(** The values that flow through the orchestrator's result mapping and the
    dashboard's sidebar tuple.  [PyObj] stands for an object of a class
    without [__bool__]/[__len__] (a pydantic model, a raw payload): such an
    object is truthy. *)
Inductive pyval :=
| PyNone
| PyBool (b : bool)
| PyInt (n : Z)
| PyStr (s : string)
| PyDate (ordinal : Z)
| PyReq (r : stock_request)
| PyObj (descr : string).

Definition truthy (v : pyval) : bool :=
  match v with
  | PyNone => false
  | PyBool b => b
  | PyInt n => negb (n =? 0)
  | PyStr s => negb (String.eqb s "")
  | PyDate _ | PyReq _ | PyObj _ => true
  end.

(** [str(v)], as an f-string renders it. *)
Definition py_str (v : pyval) : string :=
  match v with
  | PyNone => "None"
  | PyBool true => "True"
  | PyBool false => "False"
  | PyInt n => z_str n
  | PyStr s => s
  | PyDate _ => "<date>"
  | PyReq _ => "<StockRequest>"
  | PyObj d => d
  end.

(** A [dict] with string keys, as an association list without duplicate
    keys, in insertion order. *)
Definition dict := list (string * pyval).

(** [d.get(k)]: the value under [k], or [None]. *)
Definition dict_get (d : dict) (k : string) : pyval :=
  match find (fun kv => String.eqb (fst kv) k) d with
  | Some (_, v) => v
  | None => PyNone
  end.

(** [str.upper()] on ASCII text: [a]-[z] become [A]-[Z] and every other
    character is kept.  Python's [str.upper] also maps non-ASCII letters by
    the Unicode case rules (['ä'] to ['Ä'], ['ß'] to ["SS"]), so [upper]
    agrees with it on the strings [is_ascii] accepts. *)
Definition upper_ascii (c : Ascii.ascii) : Ascii.ascii :=
  let n := Ascii.nat_of_ascii c in
  if (97 <=? n)%nat && (n <=? 122)%nat then Ascii.ascii_of_nat (n - 32) else c.

Fixpoint upper (s : string) : string :=
  match s with
  | EmptyString => EmptyString
  | String c rest => String (upper_ascii c) (upper rest)
  end.

(** Every character of [s] is ASCII (code below 128). *)
Fixpoint is_ascii (s : string) : bool :=
  match s with
  | EmptyString => true
  | String c rest => (Ascii.nat_of_ascii c <? 128)%nat && is_ascii rest
  end.

(** ** [format_analysis_output] (helpers.py) *)

Section Format.

(** The fixed-layout report of lines 14-36, built from the attributes of a
    truthy [analysis_result]; only its two early returns matter here. *)
Variable render_report : pyval -> string.

Definition format_analysis_output (result : dict) : string :=
  if truthy (dict_get result "error") then
    "Error: " ++ py_str (dict_get result "error")
  else
    let analysis := dict_get result "analysis_result" in
    if negb (truthy analysis) then "No analysis result available"
    else render_report analysis.

End Format.

(** ** [StockAnalysisApp.analyze_stock] (src/main.py) *)

(** The pipeline's initial state for a request. *)
Definition initial_state (stock_request : stock_request) : dict :=
  [("stock_request", PyReq stock_request);
   ("raw_data", PyNone);
   ("processed_data", PyNone);
   ("analysis_result", PyNone);
   ("error", PyNone)].

Section Orchestrator.

(** [self.graph.ainvoke]: the compiled analysis graph of
    [src/graph/stock_analysis_graph.py], from the initial state to the
    terminal state (or an exception). *)
Variable ainvoke : dict -> PY dict.

Definition analyze_stock (symbol period : string)
  (start_date end_date : option string) : PY dict :=
  try_except
    (let symbol' := upper symbol in
     period' <- TimePeriod period ;;
     let stock_request := mkStockRequest symbol' period' start_date end_date in
     result <- ainvoke (initial_state stock_request) ;;
     ret result)
    is_Exception
    (fun e => ret [("error", PyStr ("Analysis failed: " ++ exc_str e))]).

End Orchestrator.

(** ** The dashboard (app.py) *)

(** What the widgets of one Streamlit run return. *)
Record ui_input := mkUiInput {
  ui_symbol : string;            (* st.sidebar.text_input("Stock Symbol") *)
  ui_period_label : string;      (* st.sidebar.selectbox("Analysis Period") *)
  ui_use_custom : bool;          (* "Use Custom Date Range" *)
  ui_start : Z;                  (* st.date_input("Start Date"), ordinal *)
  ui_end : Z;                    (* st.date_input("End Date"), ordinal *)
  ui_show_technical : bool;
  ui_show_volume : bool;
  ui_detailed : bool;
  ui_analyze_clicked : bool      (* st.sidebar.button("Analyze Stock") *)
}.

Definition period_options : list (string * string) :=
  [("1 Day", "1d"); ("1 Week", "1w"); ("1 Month", "1m"); ("3 Months", "3m");
   ("6 Months", "6m"); ("1 Year", "1y"); ("2 Years", "2y"); ("5 Years", "5y")].

(** [period_options[selected_period]]; the message of the [KeyError] is
    [str(KeyError(label))], the label's repr (in single quotes for a label
    without quote characters). *)
Definition lookup_period (label : string) : PY string :=
  match find (fun kv => String.eqb (fst kv) label) period_options with
  | Some (_, v) => ret v
  | None => raise KeyError ("'" ++ label ++ "'")
  end.

(** [StreamlitStockApp.setup_sidebar]: the returned tuple as a list. *)
Definition setup_sidebar (inp : ui_input) : PY (list pyval) :=
  let symbol := upper (ui_symbol inp) in
  period <- lookup_period (ui_period_label inp) ;;
  let '(start_date, end_date) :=
    if ui_use_custom inp then (PyDate (ui_start inp), PyDate (ui_end inp))
    else (PyNone, PyNone) in
  let rejected :=
    ui_use_custom inp && (truthy start_date && truthy end_date)
    && (ui_end inp <=? ui_start inp) in
  if rejected then
    emit (EvSidebarError "Start date must be before end date") ;;;
    ret [PyNone; PyNone; PyNone; PyNone]
  else
    ret [PyStr symbol; PyStr period; start_date; end_date;
         PyBool (ui_show_technical inp); PyBool (ui_show_volume inp);
         PyBool (ui_detailed inp)].

(** Unpacking a tuple into seven names. *)
Definition unpack7 (t : list pyval)
  : PY (pyval * pyval * pyval * pyval * pyval * pyval * pyval) :=
  match t with
  | [a; b; c; d; e; f; g] => ret (a, b, c, d, e, f, g)
  | _ =>
      if (List.length t <? 7)%nat then
        raise ValueError ("not enough values to unpack (expected 7, got "
                          ++ z_str (Z.of_nat (List.length t)) ++ ")")
      else raise ValueError "too many values to unpack (expected 7)"
  end.

(** [StreamlitStockApp.run] up to the analysis call: the call
    [asyncio.run(self.run_analysis(...))] is the event [EvAnalyze]; the
    rendering of its result and the static sections after the button do not
    read the sidebar's values and are not modelled. *)
Definition run (inp : ui_input) : PY unit :=
  t <- setup_sidebar inp ;;
  v <- unpack7 t ;;
  let '(symbol, period, start_date, end_date,
        show_technical, show_volume, detailed_analysis) := v in
  if ui_analyze_clicked inp then
    if truthy symbol then emit (EvAnalyze (py_str symbol))
    else emit (EvError "Please enter a stock symbol")
  else ret tt.

(** ** The launcher (run_app.py) *)

(** [subprocess.run(argv)]: spawns the command and waits for it; the
    [CompletedProcess] it returns carries the return code.  An exception
    raised during the wait (a [KeyboardInterrupt]) propagates to the
    caller. *)
Definition subprocess_run (argv : list string) : PY Z :=
  emit (EvSpawn argv) ;;;
  fun w => match w_spawn w argv with
           | SpawnExit returncode => (Ret returncode, w)
           | SpawnRaise c msg => (Raise (mkExn c msg), w)
           end.

Definition launcher_main (executable : string) : PY unit :=
  _completed <- subprocess_run [executable; "-m"; "streamlit"; "run"; "app.py"] ;;
  ret tt.

(** The exit status of the interpreter after running a script, as the
    shell reports it: 0 when the script ends normally; after an uncaught
    [KeyboardInterrupt] the interpreter kills itself with SIGINT, reported
    as 128 + 2 = 130; 1 after any other uncaught exception (the modelled
    scripts raise no [SystemExit]). *)
Definition interpreter_exit_status {A} (o : outcome A) : Z :=
  match o with
  | Ret _ => 0
  | Raise e =>
      match exc_cls e with
      | KeyboardInterrupt => 130
      | _ => 1
      end
  end.

(** [if __name__ == "__main__": main()], and the process's exit status. *)
Definition launcher_exit_status (executable : string) (w : world) : Z :=
  interpreter_exit_status (fst (launcher_main executable w)).

(** ** Executing a module body (src/mcp/vantage_client.py) *)

(** Python's execution of the statements of a module, as far as the body of
    [vantage_client.py] needs it.  Function annotations are evaluated when
    the [def] statement runs (Python's semantics up to 3.13, and the module
    has no [from __future__ import annotations]); function bodies are not
    run by their definition.  A name is looked up in the class namespace (in
    a class body), then in the module's globals, then in [builtins]. *)
Module PyModule.

Inductive pexpr :=
| EName (x : string)
| ESubscript (value : pexpr) (index : list pexpr)
| ECall (f : pexpr).

Inductive pstmt :=
| SImport (m : string)
| SImportFrom (m : string) (names : list string)
| SClassDef (name : string) (body : list pstmt)
| SFunctionDef (is_async : bool) (name : string)
    (params : list (string * option pexpr)) (returns : option pexpr)
| SAssign (target : string) (value : pexpr).

(** A namespace: names bound to a description of their object. *)
Definition env := list (string * string).

Definition env_lookup (ns : env) (x : string) : option string :=
  match find (fun kv => String.eqb (fst kv) x) ns with
  | Some (_, v) => Some v
  | None => None
  end.

Definition builtins : env :=
  map (fun x => (x, "builtin " ++ x))
    ["str"; "int"; "float"; "bool"; "dict"; "list"; "tuple"; "len"; "sum";
     "max"; "min"; "round"; "range"; "print"; "isinstance"; "Exception"].

Definition name_error (x : string) : exn :=
  mkExn NameError ("name '" ++ x ++ "' is not defined").

Fixpoint eval_expr (lookup : string -> option string) (e : pexpr)
  : outcome string :=
  match e with
  | EName x =>
      match lookup x with Some v => Ret v | None => Raise (name_error x) end
  | ESubscript v index =>
      match eval_expr lookup v with
      | Raise err => Raise err
      | Ret f =>
          (fix go (l : list pexpr) : outcome string :=
             match l with
             | [] => Ret (f ++ "[...]")
             | i :: l' =>
                 match eval_expr lookup i with
                 | Raise err => Raise err
                 | Ret _ => go l'
                 end
             end) index
      end
  | ECall f =>
      match eval_expr lookup f with
      | Raise err => Raise err
      | Ret c => Ret ("instance of " ++ c)
      end
  end.

(** Evaluates the annotations of a [def]: the parameters' in order, then
    the return annotation. *)
Fixpoint eval_annotations (lookup : string -> option string)
  (anns : list (option pexpr)) : outcome unit :=
  match anns with
  | [] => Ret tt
  | None :: rest => eval_annotations lookup rest
  | Some a :: rest =>
      match eval_expr lookup a with
      | Raise err => Raise err
      | Ret _ => eval_annotations lookup rest
      end
  end.

Section Exec.

(** [resolve m n]: whether [from m import n] finds [n] ([n = ""] for
    [import m]); the imported modules are not part of this file. *)
Variable resolve : string -> string -> bool.

Fixpoint import_names (m : string) (names : list string) (ns : env)
  : outcome env :=
  match names with
  | [] => Ret ns
  | n :: rest =>
      if resolve m n then import_names m rest ((n, m ++ "." ++ n) :: ns)
      else Raise (mkExn ImportError
                    ("cannot import name '" ++ n ++ "' from '" ++ m ++ "'"))
  end.

(** One statement, run in namespace [ns]; [globals] is [None] at module
    level and the module's globals in a class body. *)
Fixpoint exec_stmt (globals : option env) (ns : env) (s : pstmt)
  {struct s} : outcome env :=
  let lookup x :=
    match env_lookup ns x with
    | Some v => Some v
    | None =>
        match match globals with Some g => env_lookup g x | None => None end with
        | Some v => Some v
        | None => env_lookup builtins x
        end
    end in
  match s with
  | SImport m =>
      if resolve m "" then Ret ((m, "module " ++ m) :: ns)
      else Raise (mkExn ImportError ("No module named '" ++ m ++ "'"))
  | SImportFrom m names => import_names m names ns
  | SFunctionDef _ name params returns =>
      match eval_annotations lookup (map snd params ++ [returns]) with
      | Raise err => Raise err
      | Ret _ => Ret ((name, "function " ++ name) :: ns)
      end
  | SClassDef name body =>
      let g := match globals with Some g => g | None => ns end in
      let fix go (cls_ns : env) (l : list pstmt) : outcome env :=
        match l with
        | [] => Ret cls_ns
        | s' :: l' =>
            match exec_stmt (Some g) cls_ns s' with
            | Raise err => Raise err
            | Ret cls_ns' => go cls_ns' l'
            end
        end in
      match go [] body with
      | Raise err => Raise err
      | Ret _ => Ret ((name, "class " ++ name) :: ns)
      end
  | SAssign x e =>
      match eval_expr lookup e with
      | Raise err => Raise err
      | Ret v => Ret ((x, v) :: ns)
      end
  end.

(** Importing a module runs its body in a fresh global namespace; the
    import fails with the exception the body raises. *)
Fixpoint exec_block (ns : env) (body : list pstmt) : outcome env :=
  match body with
  | [] => Ret ns
  | s :: rest =>
      match exec_stmt None ns s with
      | Raise err => Raise err
      | Ret ns' => exec_block ns' rest
      end
  end.

Definition import_module (body : list pstmt) : outcome env := exec_block [] body.

End Exec.

Definition Dict_str_Any : pexpr := ESubscript (EName "Dict") [EName "str"; EName "Any"].

(** The statements of [src/mcp/vantage_client.py]; method bodies omitted
    (a [def] does not run them). *)
Definition vantage_client_module : list pstmt :=
  [SImport "requests";
   SImport "json";
   SImportFrom "typing" ["Dict"; "Any"; "Optional"];
   SImport "asyncio";
   SImportFrom "..models.schemas" ["StockRequest"; "StockDataPoint"];
   SImportFrom "config" ["config"];
   SImportFrom "..utils.helpers" ["create_sample_data"];
   SClassDef "VantageMCPServer"
     [SFunctionDef false "__init__" [("self", None)] None;
      SFunctionDef true "get_stock_data"
        [("self", None); ("stock_request", Some (EName "StockRequest"))]
        (Some Dict_str_Any);
      SFunctionDef true "get_technical_indicators"
        [("self", None); ("symbol", Some (EName "str"));
         ("data", Some (ESubscript (EName "List") [EName "StockDataPoint"]))]
        (Some Dict_str_Any)];
   SAssign "vantage_client" (ECall (EName "VantageMCPServer"))].

(** The [(module, name)] pairs the module's import statements request. *)
Definition vantage_client_imports : list (string * string) :=
  [("requests", ""); ("json", ""); ("typing", "Dict"); ("typing", "Any");
   ("typing", "Optional"); ("asyncio", ""); ("..models.schemas", "StockRequest");
   ("..models.schemas", "StockDataPoint"); ("config", "config");
   ("..utils.helpers", "create_sample_data")].

End PyModule.

(** ** Auxiliary definitions for the statements *)

(** The world after [n] more values of the generator were consumed. *)
Definition advance (w : world) (n : nat) : world :=
  mkWorld (w_draws w) (n + w_pos w) (w_now w) (w_log w) (w_net w) (w_spawn w).

(** The relations between the rounded prices of one generated point, and
    the range of its volume. *)
Definition point_ok (p : point) : Prop :=
  Z.max (pt_open p) (pt_close p) <= pt_high p /\
  pt_low p <= Z.min (pt_open p) (pt_close p) /\
  1000000 <= pt_volume p <= 5000000.

Definition is_weekday (d : Z) : bool := weekday d <? 5.

(** ** [VantageMCPServer.get_technical_indicators] (src/mcp/vantage_client.py) *)

(** The [Dict[str, Any]] it returns: the demo payload of mock mode, or the
    parsed body of the provider's answer ([{}] is [JObj []]).  Closing
    prices are in hundredths, as in [point], and the means are kept
    exactly. *)
Inductive indicators_payload :=
| IDemo (rsi macd sma_20 sma_50 : Q)
| IJson (j : json).

(** [data[-n:]]: the last [n] elements, or the whole list when it is
    shorter. *)
Definition last_n {A} (n : nat) (l : list A) : list A :=
  skipn (List.length l - n) l.

(** [sum(l)] of a list of numbers. *)
Definition py_sum (l : list Z) : Z := fold_left Z.add l 0.

(** [sum([point.close for point in data[-n:]]) / n if len(data) >= n else 0],
    as the exact mean of the closes (in hundredths): the rounding of
    Python's float sum and division is not modelled, so a statement about
    [sma] holds of the code only up to that rounding. *)
Definition sma (n : nat) (data : list point) : Q :=
  if (n <=? List.length data)%nat
  then (inject_Z (py_sum (map pt_close (last_n n data))) / inject_Z (Z.of_nat n))%Q
  else 0%Q.

(** The [try] block has a bare [except:], which catches every exception. *)
Definition get_technical_indicators (self : vantage) (symbol : string)
  (data : list point) : PY indicators_payload :=
  if use_mock_data self then
    ret (IDemo (456 # 10) (12 # 10) (sma 20 data) (sma 50 data))
  else
    try_except
      (resp <- requests_post (base_url self ++ "/technical/indicators") ;;
       let (status_code, body) := resp in
       if status_code =? 200 then
         j <- response_json body ;; ret (IJson j)
       else ret (IJson (JObj [])))
      (fun _ => true)
      (fun _ => ret (IJson (JObj []))).

(** ** The analysis call and the display of its result (app.py) *)

(** [d.get(k, default)] *)
Definition dict_get_or (d : dict) (k : string) (default : pyval) : pyval :=
  match find (fun kv => String.eqb (fst kv) k) d with
  | Some (_, v) => v
  | None => default
  end.

(** A [dict] is truthy when it is not empty. *)
Definition dict_truthy (d : dict) : bool :=
  match d with
  | [] => false
  | _ => true
  end.

Section Dashboard.

(** The compiled analysis graph, as in [analyze_stock]. *)
Variable ainvoke : dict -> PY dict.

(** [date.isoformat()] of a date ordinal. *)
Variable isoformat : Z -> string.

(** Lines 305-341 of [run]: the metric cards, the charts, the statistics
    block, the trend panel and the raw-data table drawn for a truthy
    [analysis_result], given the volume and detailed-analysis toggles. *)
Variable display_results : pyval -> pyval -> pyval -> PY unit.

(** [d.isoformat() if d else None], for the [None] or the date the sidebar
    returns. *)
Definition date_arg (d : pyval) : option string :=
  match d with
  | PyDate ordinal => Some (isoformat ordinal)
  | _ => None
  end.

(** [StreamlitStockApp.run_analysis]; the spinner only shows a message
    while the call runs. *)
Definition run_analysis (symbol period start_date end_date : pyval)
  : PY (option dict) :=
  try_except
    (result <- analyze_stock ainvoke (py_str symbol) (py_str period)
                 (date_arg start_date) (date_arg end_date) ;;
     ret (Some result))
    is_Exception
    (fun e => emit (EvError ("Analysis failed: " ++ exc_str e)) ;;; ret None).

(** Lines 301-347 of [run]: the display of [run_analysis]'s result. *)
Definition handle_result (show_volume detailed_analysis : pyval)
  (result : option dict) : PY unit :=
  match result with
  | Some r =>
      if dict_truthy r && negb (truthy (dict_get r "error")) then
        let analysis_result := dict_get r "analysis_result" in
        if truthy analysis_result then
          display_results analysis_result show_volume detailed_analysis
        else emit (EvError "No analysis results available")
      else
        let error_msg :=
          if dict_truthy r
          then py_str (dict_get_or r "error" (PyStr "Unknown error occurred"))
          else "Analysis failed" in
        emit (EvError ("Analysis failed: " ++ error_msg))
  | None =>
      let error_msg := "Analysis failed" in
      emit (EvError ("Analysis failed: " ++ error_msg))
  end.

(** [StreamlitStockApp.run] with the analysis call and the display of its
    result (lines 285-349).  The header markdown, the quick-analysis buttons
    (which only set [st.session_state.quick_symbol], read nowhere) and the
    help expander draw static content and are left out. *)
Definition run_full (inp : ui_input) : PY unit :=
  t <- setup_sidebar inp ;;
  v <- unpack7 t ;;
  let '(symbol, period, start_date, end_date,
        show_technical, show_volume, detailed_analysis) := v in
  if ui_analyze_clicked inp then
    if truthy symbol then
      result <- run_analysis symbol period start_date end_date ;;
      handle_result show_volume detailed_analysis result
    else emit (EvError "Please enter a stock symbol")
  else ret tt.

End Dashboard.

(** ** [StreamlitStockApp.display_trend_analysis] (app.py) *)

(** The Streamlit elements a rendering function draws, in order. *)
Inductive st_call :=
| StMarkdown (body : string)
| StExpander (label : string) (expanded : bool) (content : list st_call).

(** A rendering either completes, or raises [AttributeError] after drawing
    some elements. *)
Inductive render :=
| Drawn (calls : list st_call)
| AttributeError (drawn : list st_call) (msg : string).

(** The pipeline's [StockAnalysis] as far as the dashboard reads it;
    [trends] maps [trend_direction], [volatility] and [analysis]. *)
Record stock_analysis := mkStockAnalysis {
  sa_symbol : string;
  sa_period : string;
  sa_data_points : list point;
  sa_trends : dict
}.

(** [v.upper()] for a value of the trends mapping: only a [str] has
    [upper]. *)
Definition py_upper (v : pyval) : option string :=
  match v with
  | PyStr s => Some (upper s)
  | _ => None
  end.

Definition py_type_name (v : pyval) : string :=
  match v with
  | PyNone => "NoneType"
  | PyBool _ => "bool"
  | PyInt _ => "int"
  | PyStr _ => "str"
  | PyDate _ => "date"
  | PyReq _ => "StockRequest"
  | PyObj _ => "object"
  end.

Definition no_upper (v : pyval) : string :=
  "'" ++ py_type_name v ++ "' object has no attribute 'upper'".

(** [v == s] for a string [s]. *)
Definition py_eq_str (v : pyval) (s : string) : bool :=
  match v with
  | PyStr s' => String.eqb s' s
  | _ => false
  end.

Definition display_trend_analysis (analysis_result : option stock_analysis)
  (detailed : bool) : render :=
  match analysis_result with
  | None => Drawn []
  | Some a =>
      let trends := sa_trends a in
      if negb (dict_truthy trends) then Drawn [] else
      let header := StMarkdown "### 📈 Trend Analysis" in
      let trend_direction := dict_get_or trends "trend_direction" (PyStr "unknown") in
      let trend_color :=
        if py_eq_str trend_direction "bullish" then "🟢"
        else if py_eq_str trend_direction "bearish" then "🔴" else "⚪" in
      match py_upper trend_direction with
      | None => AttributeError [header] (no_upper trend_direction)
      | Some direction =>
          let line1 := StMarkdown ("**Trend Direction:** " ++ trend_color ++ " "
                                   ++ direction) in
          let volatility := dict_get_or trends "volatility" (PyStr "unknown") in
          match py_upper volatility with
          | None => AttributeError [header; line1] (no_upper volatility)
          | Some vol =>
              let line2 := StMarkdown ("**Volatility:** " ++ vol) in
              if detailed && truthy (dict_get trends "analysis") then
                Drawn [header; line1; line2;
                       StExpander "Detailed Trend Analysis" true
                         [StMarkdown (py_str (dict_get trends "analysis"))]]
              else Drawn [header; line1; line2]
          end
      end
  end.

(** ** The module body of vantage_client.py *)

(** C1: with every import of the module resolved, running its body raises
    [NameError: name 'List' is not defined] when the [def] of
    [get_technical_indicators] evaluates its annotations; the class
    [VantageMCPServer] and the instance [vantage_client] are never bound,
    and every import of the module fails with that error. *)
Theorem vantage_client_import_NameError (resolve : string -> string -> bool) :
  forallb (fun mn => resolve (fst mn) (snd mn)) PyModule.vantage_client_imports = true ->
  PyModule.import_module resolve PyModule.vantage_client_module
  = Raise (PyModule.name_error "List").
Proof.
  intros H. cbn in H.
  repeat (apply andb_prop in H; destruct H as [? H]).
  repeat (cbn; match goal with
               | E : resolve ?m ?n = true |- context [resolve ?m ?n] => rewrite E
               end).
  reflexivity.
Qed.

Lemma vantage_client_import_NameError_witness :
  forallb (fun mn => (fun _ _ => true) (fst mn) (snd mn))
    PyModule.vantage_client_imports = true /\
  PyModule.import_module (fun _ _ => true) PyModule.vantage_client_module
  = Raise (PyModule.name_error "List").
Proof.
  split; [reflexivity | apply (vantage_client_import_NameError (fun _ _ => true)); reflexivity].
Defined.

(** ** The generator: rounding and one point *)

Lemma round2_mono (x y : Z) : x <= y -> round2 x <= round2 y.
Proof.
  intros Hxy. unfold round2.
  assert (HU : 0 < UNIT) by (unfold UNIT; lia).
  pose proof (Z.div_mod (x * 100) UNIT ltac:(lia)) as Ex.
  pose proof (Z.div_mod (y * 100) UNIT ltac:(lia)) as Ey.
  pose proof (Z.mod_pos_bound (x * 100) UNIT HU) as Bx.
  pose proof (Z.mod_pos_bound (y * 100) UNIT HU) as By.
  assert (Hq : (x * 100) / UNIT <= (y * 100) / UNIT)
    by (apply Z.div_le_mono; lia).
  remember ((x * 100) / UNIT) as qx. remember ((y * 100) / UNIT) as qy.
  remember ((x * 100) mod UNIT) as rx. remember ((y * 100) mod UNIT) as ry.
  clear Heqqx Heqqy Heqrx Heqry.
  destruct (Z.eq_dec qx qy) as [<- | Hne].
  - set (t := UNIT * qx) in *. clearbody t.
    assert (rx <= ry) by lia.
    destruct (Z.even qx);
    destruct (2 * rx <? UNIT) eqn:E1; destruct (UNIT <? 2 * rx) eqn:E2;
    destruct (2 * ry <? UNIT) eqn:E3; destruct (UNIT <? 2 * ry) eqn:E4;
      rewrite ?Z.ltb_lt, ?Z.ltb_ge in *; lia.
  - assert (qx + 1 <= qy) by lia.
    destruct (2 * rx <? UNIT), (UNIT <? 2 * rx), (2 * ry <? UNIT),
             (UNIT <? 2 * ry), (Z.even qx), (Z.even qy); lia.
Qed.
Lemma round2_max (a b : Z) : round2 (Z.max a b) = Z.max (round2 a) (round2 b).
Proof.
  destruct (Z.le_ge_cases a b) as [H | H].
  - rewrite Z.max_r by exact H. pose proof (round2_mono a b H). lia.
  - rewrite Z.max_l by lia. pose proof (round2_mono b a ltac:(lia)). lia.
Qed.

Lemma round2_min (a b : Z) : round2 (Z.min a b) = Z.min (round2 a) (round2 b).
Proof.
  destruct (Z.le_ge_cases a b) as [H | H].
  - rewrite Z.min_l by exact H. pose proof (round2_mono a b H). lia.
  - rewrite Z.min_r by lia. pose proof (round2_mono b a ltac:(lia)). lia.
Qed.

Lemma advance_advance (w : world) (m n : nat) :
  advance (advance w m) n = advance w (m + n).
Proof. unfold advance; cbn. f_equal. lia. Qed.

Lemma advance_0 (w : world) : advance w 0 = w.
Proof. destruct w; reflexivity. Qed.

Lemma sample_point_spec (base_price date : Z) (w : world) :
  exists p, sample_point base_price date w = (Ret p, advance w 5) /\
            pt_date p = date /\ point_ok p.
Proof.
  destruct w as [d n now0 log net spawn].
  eexists. split.
  { unfold sample_point, uniform, random_k, randint, draw, bind, ret, advance.
    cbn -[round2 UNIT Z.modulo Z.mul Z.add Z.sub Z.max Z.min].
    reflexivity. }
  split; [reflexivity |].
  assert (HU : 0 < UNIT) by (unfold UNIT; lia).
  pose proof (Z.mod_pos_bound (d (S (S n))) UNIT HU).
  pose proof (Z.mod_pos_bound (d (S (S (S n)))) UNIT HU).
  pose proof (Z.mod_pos_bound (d (S (S (S (S n))))) (5000000 - 1000000 + 1)
                ltac:(lia)).
  unfold point_ok; cbn [pt_open pt_close pt_high pt_low pt_volume w_draws w_pos].
  rewrite <- round2_max, <- round2_min.
  repeat split; try lia; apply round2_mono; lia.
Qed.

(** ** The generator: the loop and the whole call *)

Lemma sample_loop_spec (base_price : Z) (dates : list Z) (w : world) :
  exists ps,
    sample_loop base_price dates w = (Ret ps, advance w (5 * List.length ps)) /\
    map pt_date ps = filter is_weekday dates /\
    Forall point_ok ps.
Proof.
  revert w. induction dates as [| date rest IH]; intros w.
  - exists []. cbn. rewrite advance_0. auto.
  - cbn [sample_loop filter]. unfold is_weekday at 1.
    destruct (weekday date <? 5).
    + destruct (sample_point_spec base_price date w) as (p & Hp & Hd & Hok).
      destruct (IH (advance w 5)) as (ps & Hps & Hds & Hoks).
      exists (p :: ps). unfold bind at 1. rewrite Hp.
      unfold bind at 1. rewrite Hps. unfold ret.
      rewrite advance_advance. cbn [List.length map].
      repeat split.
      * do 2 f_equal. lia.
      * rewrite Hd, Hds. reflexivity.
      * constructor; assumption.
    + apply IH.
Qed.

Lemma create_sample_data_spec {P} (symbol : string) (period : P) (w : world) :
  exists ps,
    create_sample_data symbol period w
    = (Ret (mkSample symbol period ps), advance w (1 + 5 * List.length ps)) /\
    map pt_date ps = filter is_weekday (loop_dates (w_now w - 365)) /\
    Forall point_ok ps.
Proof.
  set (base := 100 + (-20 + w_draws w (w_pos w) mod (20 - -20 + 1))).
  destruct (sample_loop_spec base (loop_dates (w_now w - 365)) (advance w 1))
    as (ps & Hps & Hds & Hoks).
  exists ps. split; [| split; assumption].
  unfold create_sample_data, randint, draw, now, bind, ret.
  change (mkWorld (w_draws w) (S (w_pos w)) (w_now w) (w_log w) (w_net w)
                  (w_spawn w)) with (advance w 1).
  cbv beta iota.
  change (w_now (advance w 1)) with (w_now w).
  fold base. rewrite Hps. rewrite advance_advance. reflexivity.
Qed.

Lemma weekday_next (d : Z) : weekday (d + 1) = (weekday d + 1) mod 7.
Proof.
  unfold weekday. rewrite Z.add_mod_idemp_l by lia. f_equal. lia.
Qed.

Lemma weekday_range (d : Z) : 0 <= weekday d < 7.
Proof. unfold weekday. apply Z.mod_pos_bound. lia. Qed.

Lemma three_days_weekday (d : Z) (rest : list Z) :
  filter is_weekday (d :: (d + 1) :: (d + 1 + 1) :: rest) <> [].
Proof.
  cbn [filter].
  destruct (is_weekday d) eqn:E1; [discriminate |].
  destruct (is_weekday (d + 1)) eqn:E2; [discriminate |].
  destruct (is_weekday (d + 1 + 1)) eqn:E3; [discriminate |].
  exfalso. unfold is_weekday in *. rewrite !weekday_next in *.
  pose proof (weekday_range d) as R.
  assert (weekday d = 0 \/ weekday d = 1 \/ weekday d = 2 \/ weekday d = 3 \/
          weekday d = 4 \/ weekday d = 5 \/ weekday d = 6) as C by lia.
  destruct C as [C | [C | [C | [C | [C | [C | C]]]]]]; rewrite C in E1, E2, E3;
    vm_compute in E1, E2, E3; discriminate.
Qed.

Lemma loop_dates_first (current_date : Z) :
  loop_dates current_date
  = current_date :: (current_date + 1) :: (current_date + 1 + 1)
      :: map (fun i => current_date + Z.of_nat i) (seq 3 247).
Proof.
  unfold loop_dates.
  change (seq 0 250) with (0 :: 1 :: 2 :: seq 3 247)%nat.
  cbn [map].
  replace (current_date + Z.of_nat 0) with current_date by lia.
  replace (current_date + Z.of_nat 1) with (current_date + 1) by lia.
  replace (current_date + Z.of_nat 2) with (current_date + 1 + 1) by lia.
  reflexivity.
Qed.

Lemma loop_dates_weekday (current_date : Z) :
  filter is_weekday (loop_dates current_date) <> [].
Proof. rewrite loop_dates_first. apply three_days_weekday. Qed.

(** ** get_stock_data *)

(** C3: with the configured base URL equal to ["mock"], [get_stock_data]
    sleeps once and returns the generator's output for the request's symbol
    and period: no HTTP request is logged, and the series is non-empty. *)
Theorem get_stock_data_mock (api_key : string) (req : stock_request) (w : world) :
  exists sd w',
    get_stock_data (VantageMCPServer_init (mkConfig "mock" api_key)) req w
    = (Ret (PSample sd), w') /\
    create_sample_data (sr_symbol req) (sr_period req) (snd (emit (EvSleep 1) w))
    = (Ret sd, w') /\
    w_log w' = EvSleep 1 :: w_log w /\
    sd_data sd <> [].
Proof.
  set (w1 := snd (emit (EvSleep 1) w)).
  destruct (create_sample_data_spec (sr_symbol req) (sr_period req) w1)
    as (ps & Hc & Hd & _).
  do 2 eexists. split; [| split; [exact Hc | split]].
  - cbv beta iota delta [get_stock_data VantageMCPServer_init use_mock_data
                         MCP_SERVER_URL bind emit].
    change (String.eqb "mock" "mock") with true. cbv beta iota zeta.
    change (mkWorld (w_draws w) (w_pos w) (w_now w) (EvSleep 1 :: w_log w)
                    (w_net w) (w_spawn w)) with w1.
    rewrite Hc. reflexivity.
  - reflexivity.
  - cbn [sd_data]. intros ->. apply (loop_dates_weekday (w_now w1 - 365)).
    rewrite <- Hd. reflexivity.
Qed.

(** C4: in live mode (a base URL other than ["mock"]), when the provider
    answers with a status other than 200, or [requests.post] raises a
    [RequestException] (a network failure), [get_stock_data] logs the POST
    and a warning and returns the generator's output for the request's
    symbol and period, drawn from the same generator state and clock. *)
Theorem get_stock_data_live_fallback (url api_key : string)
  (req : stock_request) (w : world) :
  url <> "mock" ->
  (exists status body,
     w_net w (url ++ "/stock/data") = HttpResp status body /\ status <> 200) \/
  (exists c msg,
     w_net w (url ++ "/stock/data") = HttpFail c msg /\ is_RequestException c = true) ->
  exists sd w1 w' line,
    get_stock_data (VantageMCPServer_init (mkConfig url api_key)) req w
    = (Ret (PSample sd), w') /\
    create_sample_data (sr_symbol req) (sr_period req) w1 = (Ret sd, w') /\
    w_draws w1 = w_draws w /\ w_pos w1 = w_pos w /\ w_now w1 = w_now w /\
    w_log w1 = EvPrint line :: EvPost (url ++ "/stock/data") :: w_log w.
Proof.
  intros Hurl Hans.
  assert (Hmock : String.eqb url "mock" = false) by (apply String.eqb_neq; exact Hurl).
  cbv beta iota zeta delta [get_stock_data VantageMCPServer_init use_mock_data
                            MCP_SERVER_URL base_url try_except requests_post
                            bind emit print].
  cbn [w_net w_draws w_pos w_now w_log w_spawn].
  rewrite Hmock.
  destruct Hans as [(status & body & Hnet & Hst) | (c & msg & Hnet & Hc)];
    rewrite Hnet.
  - apply Z.eqb_neq in Hst. rewrite Hst.
    set (line := "MCP Server error, using mock data: " ++ z_str status).
    set (w1 := mkWorld (w_draws w) (w_pos w) (w_now w)
                 (EvPrint line :: EvPost (url ++ "/stock/data") :: w_log w)
                 (w_net w) (w_spawn w)).
    destruct (create_sample_data_spec (sr_symbol req) (sr_period req) w1)
      as (ps & Hcs & _ & _).
    do 4 eexists. split; [| split; [exact Hcs | repeat split]].
    cbn [w_net w_draws w_pos w_now w_log w_spawn].
    change (mkWorld (w_draws w) (w_pos w) (w_now w)
              (EvPrint line :: EvPost (url ++ "/stock/data") :: w_log w)
              (w_net w) (w_spawn w)) with w1.
    rewrite Hcs. reflexivity.
  - cbn [exc_cls]. rewrite Hc.
    set (line := "MCP Server connection failed, using mock data: "
                 ++ exc_str (mkExn c msg)).
    set (w1 := mkWorld (w_draws w) (w_pos w) (w_now w)
                 (EvPrint line :: EvPost (url ++ "/stock/data") :: w_log w)
                 (w_net w) (w_spawn w)).
    destruct (create_sample_data_spec (sr_symbol req) (sr_period req) w1)
      as (ps & Hcs & _ & _).
    do 4 eexists. split; [| split; [exact Hcs | repeat split]].
    cbn [w_net w_draws w_pos w_now w_log w_spawn].
    change (mkWorld (w_draws w) (w_pos w) (w_now w)
              (EvPrint line :: EvPost (url ++ "/stock/data") :: w_log w)
              (w_net w) (w_spawn w)) with w1.
    rewrite Hcs. reflexivity.
Qed.

Lemma get_stock_data_live_fallback_witness :
  exists sd w1 w' line,
    get_stock_data (VantageMCPServer_init (mkConfig "http://localhost:8000" "demo-key"))
      (mkStockRequest "AMZN" P1y None None)
      (mkWorld (fun n => Z.of_nat n) 0 739904 [] (fun _ => HttpResp 503 (BodyNotJson "Expecting value: line 1 column 1 (char 0)"))
               (fun _ => SpawnExit 0))
    = (Ret (PSample sd), w') /\
    create_sample_data "AMZN" P1y w1 = (Ret sd, w') /\
    w_draws w1 = (fun n => Z.of_nat n) /\ w_pos w1 = 0%nat /\ w_now w1 = 739904 /\
    w_log w1 = [EvPrint line; EvPost ("http://localhost:8000" ++ "/stock/data")].
Proof.
  apply (get_stock_data_live_fallback "http://localhost:8000" "demo-key"
           (mkStockRequest "AMZN" P1y None None)
           (mkWorld (fun n => Z.of_nat n) 0 739904 [] (fun _ => HttpResp 503 (BodyNotJson "Expecting value: line 1 column 1 (char 0)"))
                    (fun _ => SpawnExit 0))).
  - discriminate.
  - left. exists 503, (BodyNotJson "Expecting value: line 1 column 1 (char 0)"). split; [reflexivity | discriminate].
Defined.

(** ** The generator's window and points *)

Lemma filter_map_length {A B} (f : B -> bool) (g : A -> B) (l : list A) :
  List.length (filter f (map g l)) = List.length (filter (fun x => f (g x)) l).
Proof.
  induction l as [| x l IH]; cbn; [reflexivity |].
  destruct (f (g x)); cbn; rewrite ?IH; reflexivity.
Qed.

Lemma weekday_shift (d : Z) (k : Z) : weekday (d + k) = (weekday d + k) mod 7.
Proof. unfold weekday. rewrite Z.add_mod_idemp_l by lia. f_equal. lia. Qed.

(** The number of weekdays among the 250 days from [current_date]. *)
Lemma loop_dates_weekday_count (current_date : Z) :
  (178 <= List.length (filter is_weekday (loop_dates current_date)) <= 180)%nat.
Proof.
  unfold loop_dates. rewrite filter_map_length.
  assert (E : forall i : nat,
             is_weekday (current_date + Z.of_nat i)
             = ((weekday current_date + Z.of_nat i) mod 7 <? 5))
    by (intros i; unfold is_weekday; rewrite weekday_shift; reflexivity).
  rewrite (filter_ext _ _ E).
  pose proof (weekday_range current_date) as R.
  assert (weekday current_date = 0 \/ weekday current_date = 1 \/
          weekday current_date = 2 \/ weekday current_date = 3 \/
          weekday current_date = 4 \/ weekday current_date = 5 \/
          weekday current_date = 6) as C by lia.
  destruct C as [C | [C | [C | [C | [C | [C | C]]]]]]; rewrite C;
    vm_compute; lia.
Qed.

Lemma loop_dates_range (current_date d : Z) :
  In d (loop_dates current_date) -> current_date <= d <= current_date + 249.
Proof.
  unfold loop_dates. intros Hin.
  apply in_map_iff in Hin as (i & <- & Hi).
  apply in_seq in Hi. lia.
Qed.

(** C6: the generated series holds between 178 and 180 points (the
    weekdays among 250 calendar days, not about 250 trading days), all on
    weekdays between 365 and 116 days before the generation date: the series
    ends at least 116 days before "today". *)
Theorem create_sample_data_window {P} (symbol : string) (period : P) (w : world) :
  exists sd w',
    create_sample_data symbol period w = (Ret sd, w') /\
    (178 <= List.length (sd_data sd) <= 180)%nat /\
    Forall (fun p => w_now w - 365 <= pt_date p <= w_now w - 116 /\
                     is_weekday (pt_date p) = true) (sd_data sd).
Proof.
  destruct (create_sample_data_spec symbol period w) as (ps & Hc & Hd & _).
  do 2 eexists. split; [exact Hc |]. cbn [sd_data]. split.
  - rewrite <- (length_map pt_date ps), Hd. apply loop_dates_weekday_count.
  - apply Forall_forall. intros p Hp.
    assert (Hin : In (pt_date p) (filter is_weekday (loop_dates (w_now w - 365))))
      by (rewrite <- Hd; apply in_map; exact Hp).
    apply filter_In in Hin as [Hin Hwd].
    apply loop_dates_range in Hin. split; [lia | exact Hwd].
Qed.

(** The failing input of C6: generated on 2026-10-15 (ordinal 739904), the
    series has 178 points and its last date is 2026-06-19, 118 days
    earlier. *)
Lemma create_sample_data_on_2026_10_15 {P} (symbol : string) (period : P)
  (draws : nat -> Z) (pos : nat) (log : list event)
  (net : string -> http_outcome) (spawn : list string -> spawn_outcome) :
  exists sd w',
    create_sample_data symbol period (mkWorld draws pos 739904 log net spawn)
    = (Ret sd, w') /\
    List.length (sd_data sd) = 178%nat /\
    last (map pt_date (sd_data sd)) 0 = 739904 - 118.
Proof.
  destruct (create_sample_data_spec symbol period (mkWorld draws pos 739904 log net spawn))
    as (ps & Hc & Hd & _).
  do 2 eexists. split; [exact Hc |]. cbn [sd_data w_now] in *.
  rewrite <- (length_map pt_date ps), Hd. split; vm_compute; reflexivity.
Qed.

(** C7: every generated point satisfies, after rounding to hundredths,
    [high >= max(open, close)] and [low <= min(open, close)], and its
    volume lies in [[1000000, 5000000]]. *)
Theorem create_sample_data_point_bounds {P} (symbol : string) (period : P)
  (w : world) :
  exists sd w',
    create_sample_data symbol period w = (Ret sd, w') /\
    Forall (fun p =>
              Z.max (pt_open p) (pt_close p) <= pt_high p /\
              pt_low p <= Z.min (pt_open p) (pt_close p) /\
              1000000 <= pt_volume p <= 5000000) (sd_data sd).
Proof.
  destruct (create_sample_data_spec symbol period w) as (ps & Hc & _ & Hok).
  do 2 eexists. split; [exact Hc | exact Hok].
Qed.

(** ** The generator and the global random state *)

(** Two successive calls with the same arguments, as two requests in one
    process make them. *)
Definition two_sample_calls {P} (symbol : string) (period : P)
  : PY (sample_data P * sample_data P) :=
  first <- create_sample_data symbol period ;;
  second <- create_sample_data symbol period ;;
  ret (first, second).

Lemma sample_point_frame (base_price date : Z) (w1 w2 : world) :
  w_draws w1 = w_draws w2 -> w_pos w1 = w_pos w2 ->
  fst (sample_point base_price date w1) = fst (sample_point base_price date w2).
Proof.
  destruct w1 as [d1 n1 t1 l1 e1 s1], w2 as [d2 n2 t2 l2 e2 s2].
  cbn [w_draws w_pos]. intros -> ->. reflexivity.
Qed.

Lemma sample_loop_frame (base_price : Z) (dates : list Z) (w1 w2 : world) :
  w_draws w1 = w_draws w2 -> w_pos w1 = w_pos w2 ->
  fst (sample_loop base_price dates w1) = fst (sample_loop base_price dates w2).
Proof.
  revert w1 w2. induction dates as [| date rest IH]; intros w1 w2 Hd Hp.
  - reflexivity.
  - cbn [sample_loop]. destruct (weekday date <? 5); [| apply IH; assumption].
    pose proof (sample_point_frame base_price date w1 w2 Hd Hp) as Hf.
    destruct (sample_point_spec base_price date w1) as (p1 & H1 & _).
    destruct (sample_point_spec base_price date w2) as (p2 & H2 & _).
    rewrite H1, H2 in Hf. cbn [fst] in Hf. injection Hf as <-.
    unfold bind at 1 3. rewrite H1, H2.
    assert (IH' := IH (advance w1 5) (advance w2 5)
                      ltac:(cbn [advance w_draws]; assumption) ltac:(cbn [advance w_pos]; lia)).
    unfold bind.
    destruct (sample_loop base_price rest (advance w1 5)) as [[ps1 | e1] w1'],
             (sample_loop base_price rest (advance w2 5)) as [[ps2 | e2] w2'];
      unfold ret; cbn [fst] in IH' |- *; congruence.
Qed.

Lemma create_sample_data_frame {P} (symbol : string) (period : P) (w1 w2 : world) :
  w_draws w1 = w_draws w2 -> w_pos w1 = w_pos w2 -> w_now w1 = w_now w2 ->
  fst (create_sample_data symbol period w1) = fst (create_sample_data symbol period w2).
Proof.
  intros Hd Hp Hn.
  unfold create_sample_data, randint, draw, now, bind, ret.
  change (mkWorld (w_draws w1) (S (w_pos w1)) (w_now w1) (w_log w1) (w_net w1)
                  (w_spawn w1)) with (advance w1 1).
  change (mkWorld (w_draws w2) (S (w_pos w2)) (w_now w2) (w_log w2) (w_net w2)
                  (w_spawn w2)) with (advance w2 1).
  cbv beta iota zeta.
  change (w_now (advance w1 1)) with (w_now w1).
  change (w_now (advance w2 1)) with (w_now w2).
  rewrite Hd, Hp, Hn.
  pose proof (sample_loop_frame
                (100 + (-20 + w_draws w2 (w_pos w2) mod (20 - -20 + 1)))
                (loop_dates (w_now w2 - 365)) (advance w1 1) (advance w2 1)
                ltac:(cbn [advance w_draws]; assumption)
                ltac:(cbn [advance w_pos]; lia)) as Hf.
  destruct (sample_loop _ _ (advance w1 1)) as [[ps1 | e1] w1'],
           (sample_loop _ _ (advance w2 1)) as [[ps2 | e2] w2'];
    cbn [fst] in Hf |- *; congruence.
Qed.

(** C8 (counterexample): two successive calls with the same symbol and
    period, at the same date, return different series: the second call
    starts from the generator state the first one left. *)
Lemma create_sample_data_successive_calls_differ :
  match fst (two_sample_calls "AMZN" P1y
               (mkWorld (fun n => Z.of_nat n) 0 739904 [] (fun _ => HttpResp 200 (BodyNotJson "Expecting value: line 1 column 1 (char 0)"))
                        (fun _ => SpawnExit 0))) with
  | Ret (first, second) => map pt_open (sd_data first) <> map pt_open (sd_data second)
  | Raise _ => False
  end.
Proof. vm_compute. intros H. discriminate H. Qed.

(** C8 (amended): the output of [create_sample_data] is determined by its
    arguments, the generation date and the state of the global generator:
    two calls from the same generator state and date return the same series,
    and each consumes [1 + 5 * (number of points)] values of the
    generator. *)
Theorem create_sample_data_same_state {P} (symbol : string) (period : P)
  (w1 w2 : world) :
  w_draws w1 = w_draws w2 -> w_pos w1 = w_pos w2 -> w_now w1 = w_now w2 ->
  exists sd,
    create_sample_data symbol period w1
    = (Ret sd, advance w1 (1 + 5 * List.length (sd_data sd))) /\
    create_sample_data symbol period w2
    = (Ret sd, advance w2 (1 + 5 * List.length (sd_data sd))).
Proof.
  intros Hd Hp Hn.
  pose proof (create_sample_data_frame symbol period w1 w2 Hd Hp Hn) as Hf.
  destruct (create_sample_data_spec symbol period w1) as (ps1 & H1 & _).
  destruct (create_sample_data_spec symbol period w2) as (ps2 & H2 & _).
  rewrite H1, H2 in Hf. cbn [fst] in Hf. injection Hf as <-.
  exists (mkSample symbol period ps1). split; assumption.
Qed.

Lemma create_sample_data_same_state_witness :
  w_draws (mkWorld (fun n => Z.of_nat n) 3 739904 [] (fun _ => HttpResp 200 (BodyNotJson "Expecting value: line 1 column 1 (char 0)")) (fun _ => SpawnExit 0))
  = w_draws (mkWorld (fun n => Z.of_nat n) 3 739904 [EvSleep 1] (fun _ => HttpResp 500 (BodyNotJson "Expecting value: line 1 column 1 (char 0)"))
                     (fun _ => SpawnExit 1)) /\
  exists sd,
    create_sample_data "AAPL" P1y
      (mkWorld (fun n => Z.of_nat n) 3 739904 [] (fun _ => HttpResp 200 (BodyNotJson "Expecting value: line 1 column 1 (char 0)")) (fun _ => SpawnExit 0))
    = (Ret sd, advance (mkWorld (fun n => Z.of_nat n) 3 739904 []
                          (fun _ => HttpResp 200 (BodyNotJson "Expecting value: line 1 column 1 (char 0)")) (fun _ => SpawnExit 0))
                 (1 + 5 * List.length (sd_data sd))) /\
    create_sample_data "AAPL" P1y
      (mkWorld (fun n => Z.of_nat n) 3 739904 [EvSleep 1] (fun _ => HttpResp 500 (BodyNotJson "Expecting value: line 1 column 1 (char 0)"))
               (fun _ => SpawnExit 1))
    = (Ret sd, advance (mkWorld (fun n => Z.of_nat n) 3 739904 [EvSleep 1]
                          (fun _ => HttpResp 500 (BodyNotJson "Expecting value: line 1 column 1 (char 0)")) (fun _ => SpawnExit 1))
                 (1 + 5 * List.length (sd_data sd))).
Proof.
  split; [reflexivity |].
  apply (create_sample_data_same_state "AAPL" P1y
           (mkWorld (fun n => Z.of_nat n) 3 739904 [] (fun _ => HttpResp 200 (BodyNotJson "Expecting value: line 1 column 1 (char 0)")) (fun _ => SpawnExit 0))
           (mkWorld (fun n => Z.of_nat n) 3 739904 [EvSleep 1] (fun _ => HttpResp 500 (BodyNotJson "Expecting value: line 1 column 1 (char 0)"))
                    (fun _ => SpawnExit 1))); reflexivity.
Defined.

(** ** analyze_stock *)



(** ** The dashboard's sidebar *)

Lemma lookup_period_known (label : string) (w : world) :
  In label (map fst period_options) ->
  exists v, lookup_period label w = (Ret v, w).
Proof.
  intros Hin. unfold lookup_period.
  destruct (find (fun kv => String.eqb (fst kv) label) period_options) as [[k v] |] eqn:E.
  - exists v. reflexivity.
  - apply in_map_iff in Hin as ([k v] & Hk & Hkv). cbn in Hk. subst k.
    apply (find_none _ _ E) in Hkv. cbn in Hkv.
    rewrite String.eqb_refl in Hkv. discriminate.
Qed.

(** C5: with a custom range whose start is not before its end,
    [setup_sidebar] shows the sidebar error and returns a 4-tuple, and
    [run]'s unpacking of it into seven names raises [ValueError] before the
    analysis button is consulted: no analysis is invoked, and the run ends
    with that exception. *)
Theorem run_rejected_dates_ValueError (inp : ui_input) (w : world) :
  ui_use_custom inp = true ->
  ui_end inp <= ui_start inp ->
  In (ui_period_label inp) (map fst period_options) ->
  run inp w
  = (Raise (mkExn ValueError "not enough values to unpack (expected 7, got 4)"),
     mkWorld (w_draws w) (w_pos w) (w_now w)
       (EvSidebarError "Start date must be before end date" :: w_log w)
       (w_net w) (w_spawn w)).
Proof.
  intros Hc Hle Hin.
  destruct (lookup_period_known (ui_period_label inp) w Hin) as (v & Hv).
  unfold run, setup_sidebar, bind at 1 2.
  rewrite Hv. rewrite Hc. cbn [truthy andb].
  apply Z.leb_le in Hle. rewrite Hle.
  reflexivity.
Qed.

Lemma run_rejected_dates_ValueError_witness :
  let inp := mkUiInput "amzn" "1 Year" true 739904 739904 true true true true in
  let w := mkWorld (fun _ => 0) 0 739904 [] (fun _ => HttpResp 200 (BodyNotJson "Expecting value: line 1 column 1 (char 0)")) (fun _ => SpawnExit 0) in
  ui_use_custom inp = true /\ ui_end inp <= ui_start inp /\
  In (ui_period_label inp) (map fst period_options) /\
  run inp w
  = (Raise (mkExn ValueError "not enough values to unpack (expected 7, got 4)"),
     mkWorld (w_draws w) (w_pos w) (w_now w)
       (EvSidebarError "Start date must be before end date" :: w_log w)
       (w_net w) (w_spawn w)).
Proof.
  intros inp w.
  assert (H1 : ui_use_custom inp = true) by reflexivity.
  assert (H2 : ui_end inp <= ui_start inp) by (cbn; lia).
  assert (H3 : In (ui_period_label inp) (map fst period_options))
    by (cbn; tauto).
  split; [exact H1 | split; [exact H2 | split; [exact H3 |]]].
  exact (run_rejected_dates_ValueError inp w H1 H2 H3).
Defined.

(** ** format_analysis_output *)

Lemma dict_get_absent (d : dict) (k : string) :
  ~ In k (map fst d) -> dict_get d k = PyNone.
Proof.
  unfold dict_get. induction d as [| [k' v] d IH]; intros Hk; [reflexivity |].
  cbn in Hk |- *. destruct (String.eqb k' k) eqn:E.
  - apply String.eqb_eq in E. exfalso. apply Hk. left. exact E.
  - apply IH. intros H. apply Hk. right. exact H.
Qed.

(** C9 (counterexample): with an empty error message the [if
    result.get("error")] test fails, and the result renders as
    ["No analysis result available"], not ["Error: "]. *)
Lemma format_analysis_output_empty_error :
  format_analysis_output (fun _ => "report") [("error", PyStr "")]
  = "No analysis result available" /\
  format_analysis_output (fun _ => "report") [("error", PyStr "")] <> "Error: " ++ "".
Proof. split; [reflexivity | discriminate]. Qed.

(** C9 (amended): a result holding only an error with a non-empty message
    [m] renders as ["Error: " ++ m]; a result whose error and analysis
    result are both absent or falsy (in particular both [None], as in every
    pipeline state) renders as ["No analysis result available"]. *)
Theorem format_analysis_output_early_returns (render_report : pyval -> string)
  (m : string) (result : dict) :
  (m <> "" -> format_analysis_output render_report [("error", PyStr m)] = "Error: " ++ m) /\
  (truthy (dict_get result "error") = false ->
   truthy (dict_get result "analysis_result") = false ->
   format_analysis_output render_report result = "No analysis result available").
Proof.
  split.
  - intros Hm. unfold format_analysis_output, dict_get. cbn [find fst].
    rewrite String.eqb_refl. cbn [truthy py_str].
    apply String.eqb_neq in Hm. rewrite Hm. reflexivity.
  - intros He Ha. unfold format_analysis_output.
    rewrite He, Ha. reflexivity.
Qed.

(** ** The launcher *)

(** C10 (counterexample): the dashboard process exits with status 1 and the
    launcher exits with status 0. *)
Lemma launcher_ignores_child_status :
  w_spawn (mkWorld (fun _ => 0) 0 739904 [] (fun _ => HttpResp 200 (BodyNotJson "Expecting value: line 1 column 1 (char 0)")) (fun _ => SpawnExit 1))
    ["/usr/bin/python3"; "-m"; "streamlit"; "run"; "app.py"] = SpawnExit 1 /\
  launcher_exit_status "/usr/bin/python3"
    (mkWorld (fun _ => 0) 0 739904 [] (fun _ => HttpResp 200 (BodyNotJson "Expecting value: line 1 column 1 (char 0)")) (fun _ => SpawnExit 1)) = 0.
Proof. split; reflexivity. Qed.

(** C10 (amended): the launcher spawns [sys.executable -m streamlit run
    app.py] and waits for it.  When the dashboard process terminates, the
    launcher discards its return code and exits with status 0, whatever that
    code was.  An exception raised during the wait propagates out of [main]
    unchanged; for a [KeyboardInterrupt] (Ctrl-C) the launcher dies by
    SIGINT, status 130. *)
Theorem launcher_exits_zero (executable : string) (w : world) :
  w_log (snd (launcher_main executable w))
  = EvSpawn [executable; "-m"; "streamlit"; "run"; "app.py"] :: w_log w /\
  (forall returncode,
     w_spawn w [executable; "-m"; "streamlit"; "run"; "app.py"] = SpawnExit returncode ->
     launcher_exit_status executable w = 0) /\
  (forall c msg,
     w_spawn w [executable; "-m"; "streamlit"; "run"; "app.py"] = SpawnRaise c msg ->
     fst (launcher_main executable w) = Raise (mkExn c msg)) /\
  (forall msg,
     w_spawn w [executable; "-m"; "streamlit"; "run"; "app.py"] = SpawnRaise KeyboardInterrupt msg ->
     launcher_exit_status executable w = 130).
Proof.
  unfold launcher_exit_status, launcher_main, subprocess_run, emit, bind, ret.
  cbn [w_spawn w_log fst snd]. repeat split.
  - destruct (w_spawn w _); reflexivity.
  - intros r H. rewrite H. reflexivity.
  - intros c msg H. rewrite H. reflexivity.
  - intros msg H. rewrite H. reflexivity.
Qed.

(** ** get_technical_indicators *)

Lemma fold_left_add_acc (l : list Z) (a : Z) :
  fold_left Z.add l a = a + fold_left Z.add l 0.
Proof.
  revert a. induction l as [| x l IH]; intros a; cbn; [lia |].
  rewrite (IH (a + x)), (IH x). lia.
Qed.

Lemma py_sum_bounds (l : list Z) (lo hi : Z) :
  Forall (fun x => lo <= x <= hi) l ->
  lo * Z.of_nat (List.length l) <= py_sum l <= hi * Z.of_nat (List.length l).
Proof.
  unfold py_sum. induction 1 as [| x l Hx Hl IH]; cbn [fold_left List.length]; [lia |].
  rewrite fold_left_add_acc. lia.
Qed.

Lemma length_last_n {A} (n : nat) (l : list A) :
  (n <= List.length l)%nat -> List.length (last_n n l) = n.
Proof. intros H. unfold last_n. rewrite length_skipn. lia. Qed.

Lemma last_n_app {A} (n : nat) (older l : list A) :
  (n <= List.length l)%nat -> last_n n (older ++ l) = last_n n l.
Proof.
  intros H. unfold last_n. rewrite length_app.
  replace (List.length older + List.length l - n)%nat
    with (List.length older + (List.length l - n))%nat by lia.
  rewrite skipn_app. rewrite skipn_all2 by lia. cbn [app].
  f_equal. lia.
Qed.

(** The mean of the last [n] closes lies between bounds of those closes. *)
Lemma sma_bounds (n : nat) (data : list point) (lo hi : Z) :
  (0 < n)%nat -> (n <= List.length data)%nat ->
  Forall (fun p => lo <= pt_close p <= hi) (last_n n data) ->
  (inject_Z lo <= sma n data <= inject_Z hi)%Q.
Proof.
  intros Hn Hlen Hall. unfold sma.
  apply Nat.leb_le in Hlen as Hb. rewrite Hb.
  assert (Hc : Forall (fun x => lo <= x <= hi) (map pt_close (last_n n data)))
    by (apply Forall_map; exact Hall).
  pose proof (py_sum_bounds _ lo hi Hc) as Hs.
  rewrite length_map, length_last_n in Hs by exact Hlen.
  assert (Hpos : (0 < inject_Z (Z.of_nat n))%Q).
  { change 0%Q with (inject_Z 0). rewrite <- Zlt_Qlt. lia. }
  split.
  - apply Qle_shift_div_l; [exact Hpos |].
    rewrite <- inject_Z_mult. rewrite <- Zle_Qle. lia.
  - apply Qle_shift_div_r; [exact Hpos |].
    rewrite <- inject_Z_mult. rewrite <- Zle_Qle. lia.
Qed.

(** A moving average only reads the last [n] points: with at least [n]
    points, prepending older points does not change it. *)
Theorem sma_ignores_older_points (n : nat) (older data : list point) :
  (n <= List.length data)%nat -> sma n (older ++ data) = sma n data.
Proof.
  intros H. unfold sma. rewrite last_n_app by exact H.
  rewrite length_app.
  replace (n <=? List.length older + List.length data)%nat with true
    by (symmetry; apply Nat.leb_le; lia).
  replace (n <=? List.length data)%nat with true
    by (symmetry; apply Nat.leb_le; lia).
  reflexivity.
Qed.

Lemma sma_ignores_older_points_witness :
  (1 <= List.length [mkPoint 2 0 0 0 10100 0 10100])%nat /\
  sma 1 ([mkPoint 1 0 0 0 9000 0 9000] ++ [mkPoint 2 0 0 0 10100 0 10100])
  = sma 1 [mkPoint 2 0 0 0 10100 0 10100].
Proof.
  assert (H : (1 <= List.length [mkPoint 2 0 0 0 10100 0 10100])%nat) by (cbn; lia).
  split; [exact H | exact (sma_ignores_older_points 1 _ _ H)].
Defined.

(** In live mode [get_technical_indicators] never raises, whatever the
    network does (the bare [except:] catches everything, also
    [KeyboardInterrupt]): it logs one POST to [{base_url}/technical/indicators]
    and returns the parsed body of a 200 answer, and [{}] for any other
    status, an unparsable body or a failed request. *)
Theorem get_technical_indicators_live (url api_key symbol : string)
  (data : list point) (w : world) :
  url <> "mock" ->
  get_technical_indicators (VantageMCPServer_init (mkConfig url api_key)) symbol data w
  = (Ret (match w_net w (url ++ "/technical/indicators") with
          | HttpResp status (BodyJson j) => if status =? 200 then IJson j else IJson (JObj [])
          | _ => IJson (JObj [])
          end),
     mkWorld (w_draws w) (w_pos w) (w_now w)
       (EvPost (url ++ "/technical/indicators") :: w_log w) (w_net w) (w_spawn w)).
Proof.
  intros Hurl.
  assert (Hmock : String.eqb url "mock" = false) by (apply String.eqb_neq; exact Hurl).
  cbv beta iota zeta delta [get_technical_indicators VantageMCPServer_init use_mock_data
                            MCP_SERVER_URL base_url try_except requests_post
                            bind emit ret].
  rewrite Hmock. cbn [w_net w_draws w_pos w_now w_log w_spawn].
  destruct (w_net w (url ++ "/technical/indicators")) as [status [j |] | c msg].
  - destruct (status =? 200); reflexivity.
  - destruct (status =? 200); reflexivity.
  - reflexivity.
Qed.

Lemma get_technical_indicators_live_witness :
  "http://localhost:8000" <> "mock" /\
  get_technical_indicators
    (VantageMCPServer_init (mkConfig "http://localhost:8000" "demo-key")) "AMZN" []
    (mkWorld (fun _ => 0) 0 739904 [] (fun _ => HttpFail KeyboardInterrupt "") (fun _ => SpawnExit 0))
  = (Ret (IJson (JObj [])),
     mkWorld (fun _ => 0) 0 739904 [EvPost ("http://localhost:8000" ++ "/technical/indicators")]
       (fun _ => HttpFail KeyboardInterrupt "") (fun _ => SpawnExit 0)).
Proof.
  assert (H : "http://localhost:8000" <> "mock") by discriminate.
  split; [exact H |].
  exact (get_technical_indicators_live "http://localhost:8000" "demo-key" "AMZN" []
           (mkWorld (fun _ => 0) 0 739904 [] (fun _ => HttpFail KeyboardInterrupt "")
                    (fun _ => SpawnExit 0)) H).
Defined.

(** ** get_stock_data: the other live-mode answers *)

(** In live mode, a 200 answer with a JSON body is returned as it is: the
    only effect is the logged POST, and the generator is not touched. *)
Theorem get_stock_data_live_json (url api_key : string) (req : stock_request)
  (w : world) (j : json) :
  url <> "mock" ->
  w_net w (url ++ "/stock/data") = HttpResp 200 (BodyJson j) ->
  get_stock_data (VantageMCPServer_init (mkConfig url api_key)) req w
  = (Ret (PJson j),
     mkWorld (w_draws w) (w_pos w) (w_now w)
       (EvPost (url ++ "/stock/data") :: w_log w) (w_net w) (w_spawn w)).
Proof.
  intros Hurl Hnet.
  assert (Hmock : String.eqb url "mock" = false) by (apply String.eqb_neq; exact Hurl).
  cbv beta iota zeta delta [get_stock_data VantageMCPServer_init use_mock_data
                            MCP_SERVER_URL base_url try_except requests_post
                            response_json bind emit ret].
  rewrite Hmock. cbn [w_net w_draws w_pos w_now w_log w_spawn].
  rewrite Hnet. reflexivity.
Qed.

Lemma get_stock_data_live_json_witness :
  "http://localhost:8000" <> "mock" /\
  w_net (mkWorld (fun _ => 0) 0 739904 [] (fun _ => HttpResp 200 (BodyJson (JObj [])))
                 (fun _ => SpawnExit 0)) ("http://localhost:8000" ++ "/stock/data")
  = HttpResp 200 (BodyJson (JObj [])) /\
  get_stock_data (VantageMCPServer_init (mkConfig "http://localhost:8000" "demo-key"))
    (mkStockRequest "AMZN" P1y None None)
    (mkWorld (fun _ => 0) 0 739904 [] (fun _ => HttpResp 200 (BodyJson (JObj [])))
             (fun _ => SpawnExit 0))
  = (Ret (PJson (JObj [])),
     mkWorld (fun _ => 0) 0 739904 [EvPost ("http://localhost:8000" ++ "/stock/data")]
       (fun _ => HttpResp 200 (BodyJson (JObj []))) (fun _ => SpawnExit 0)).
Proof.
  assert (H1 : "http://localhost:8000" <> "mock") by discriminate.
  assert (H2 : w_net (mkWorld (fun _ => 0) 0 739904 []
                        (fun _ => HttpResp 200 (BodyJson (JObj []))) (fun _ => SpawnExit 0))
                 ("http://localhost:8000" ++ "/stock/data")
               = HttpResp 200 (BodyJson (JObj []))) by reflexivity.
  split; [exact H1 | split; [exact H2 |]].
  exact (get_stock_data_live_json "http://localhost:8000" "demo-key"
           (mkStockRequest "AMZN" P1y None None)
           (mkWorld (fun _ => 0) 0 739904 [] (fun _ => HttpResp 200 (BodyJson (JObj [])))
                    (fun _ => SpawnExit 0)) (JObj []) H1 H2).
Defined.

(** In live mode, a 200 answer whose body does not parse makes
    [response.json()] raise [JSONDecodeError], a [RequestException]: the
    client prints the "connection failed" warning with the decoder's
    message and falls back to the generator, from the same generator state
    and clock. *)
Theorem get_stock_data_live_bad_body (url api_key : string) (req : stock_request)
  (w : world) (decode_error : string) :
  url <> "mock" ->
  w_net w (url ++ "/stock/data") = HttpResp 200 (BodyNotJson decode_error) ->
  exists sd w',
    get_stock_data (VantageMCPServer_init (mkConfig url api_key)) req w
    = (Ret (PSample sd), w') /\
    create_sample_data (sr_symbol req) (sr_period req)
      (mkWorld (w_draws w) (w_pos w) (w_now w)
         (EvPrint ("MCP Server connection failed, using mock data: " ++ decode_error)
          :: EvPost (url ++ "/stock/data") :: w_log w) (w_net w) (w_spawn w))
    = (Ret sd, w').
Proof.
  intros Hurl Hnet.
  assert (Hmock : String.eqb url "mock" = false) by (apply String.eqb_neq; exact Hurl).
  set (w1 := mkWorld (w_draws w) (w_pos w) (w_now w)
               (EvPrint ("MCP Server connection failed, using mock data: " ++ decode_error)
                :: EvPost (url ++ "/stock/data") :: w_log w) (w_net w) (w_spawn w)).
  destruct (create_sample_data_spec (sr_symbol req) (sr_period req) w1)
    as (ps & Hcs & _ & _).
  do 2 eexists. split; [| exact Hcs].
  cbv beta iota zeta delta [get_stock_data VantageMCPServer_init use_mock_data
                            MCP_SERVER_URL base_url try_except requests_post
                            response_json bind emit print raise].
  rewrite Hmock. cbn [w_net w_draws w_pos w_now w_log w_spawn exc_cls].
  rewrite Hnet. cbn [Z.eqb Pos.eqb]. cbv beta iota zeta.
  cbn [exc_cls is_RequestException exc_str exc_msg w_draws w_pos w_now w_log w_net
       w_spawn].
  change (mkWorld (w_draws w) (w_pos w) (w_now w)
            (EvPrint ("MCP Server connection failed, using mock data: " ++ decode_error)
             :: EvPost (url ++ "/stock/data") :: w_log w) (w_net w) (w_spawn w)) with w1.
  rewrite Hcs. reflexivity.
Qed.

Lemma get_stock_data_live_bad_body_witness :
  "http://localhost:8000" <> "mock" /\
  w_net (mkWorld (fun n => Z.of_nat n) 0 739904 []
           (fun _ => HttpResp 200 (BodyNotJson "Expecting value: line 1 column 1 (char 0)"))
           (fun _ => SpawnExit 0)) ("http://localhost:8000" ++ "/stock/data")
  = HttpResp 200 (BodyNotJson "Expecting value: line 1 column 1 (char 0)") /\
  exists sd w',
    get_stock_data (VantageMCPServer_init (mkConfig "http://localhost:8000" "demo-key"))
      (mkStockRequest "AMZN" P1y None None)
      (mkWorld (fun n => Z.of_nat n) 0 739904 []
         (fun _ => HttpResp 200 (BodyNotJson "Expecting value: line 1 column 1 (char 0)"))
         (fun _ => SpawnExit 0))
    = (Ret (PSample sd), w') /\
    create_sample_data "AMZN" P1y
      (mkWorld (fun n => Z.of_nat n) 0 739904
         [EvPrint ("MCP Server connection failed, using mock data: "
                   ++ "Expecting value: line 1 column 1 (char 0)");
          EvPost ("http://localhost:8000" ++ "/stock/data")]
         (fun _ => HttpResp 200 (BodyNotJson "Expecting value: line 1 column 1 (char 0)"))
         (fun _ => SpawnExit 0))
    = (Ret sd, w').
Proof.
  assert (H1 : "http://localhost:8000" <> "mock") by discriminate.
  assert (H2 : w_net (mkWorld (fun n => Z.of_nat n) 0 739904 []
                        (fun _ => HttpResp 200
                                    (BodyNotJson "Expecting value: line 1 column 1 (char 0)"))
                        (fun _ => SpawnExit 0))
                 ("http://localhost:8000" ++ "/stock/data")
               = HttpResp 200 (BodyNotJson "Expecting value: line 1 column 1 (char 0)"))
    by reflexivity.
  split; [exact H1 | split; [exact H2 |]].
  exact (get_stock_data_live_bad_body "http://localhost:8000" "demo-key"
           (mkStockRequest "AMZN" P1y None None)
           (mkWorld (fun n => Z.of_nat n) 0 739904 []
              (fun _ => HttpResp 200 (BodyNotJson "Expecting value: line 1 column 1 (char 0)"))
              (fun _ => SpawnExit 0))
           "Expecting value: line 1 column 1 (char 0)" H1 H2).
Defined.

(** In live mode, an exception of [requests.post] outside
    [RequestException] (a [KeyboardInterrupt], a [TypeError], ...) is not
    caught: it propagates out of [get_stock_data] after the POST, and no
    fallback data is generated. *)
Theorem get_stock_data_live_other_exception (url api_key : string)
  (req : stock_request) (w : world) (c : exc_class) (msg : string) :
  url <> "mock" ->
  w_net w (url ++ "/stock/data") = HttpFail c msg ->
  is_RequestException c = false ->
  get_stock_data (VantageMCPServer_init (mkConfig url api_key)) req w
  = (Raise (mkExn c msg),
     mkWorld (w_draws w) (w_pos w) (w_now w)
       (EvPost (url ++ "/stock/data") :: w_log w) (w_net w) (w_spawn w)).
Proof.
  intros Hurl Hnet Hc.
  assert (Hmock : String.eqb url "mock" = false) by (apply String.eqb_neq; exact Hurl).
  cbv beta iota zeta delta [get_stock_data VantageMCPServer_init use_mock_data
                            MCP_SERVER_URL base_url try_except requests_post
                            bind emit].
  rewrite Hmock. cbn [w_net w_draws w_pos w_now w_log w_spawn].
  rewrite Hnet. cbn [exc_cls]. rewrite Hc. reflexivity.
Qed.

Lemma get_stock_data_live_other_exception_witness :
  "http://localhost:8000" <> "mock" /\
  w_net (mkWorld (fun _ => 0) 0 739904 [] (fun _ => HttpFail KeyboardInterrupt "")
                 (fun _ => SpawnExit 0)) ("http://localhost:8000" ++ "/stock/data")
  = HttpFail KeyboardInterrupt "" /\
  is_RequestException KeyboardInterrupt = false /\
  get_stock_data (VantageMCPServer_init (mkConfig "http://localhost:8000" "demo-key"))
    (mkStockRequest "AMZN" P1y None None)
    (mkWorld (fun _ => 0) 0 739904 [] (fun _ => HttpFail KeyboardInterrupt "") (fun _ => SpawnExit 0))
  = (Raise (mkExn KeyboardInterrupt ""),
     mkWorld (fun _ => 0) 0 739904 [EvPost ("http://localhost:8000" ++ "/stock/data")]
       (fun _ => HttpFail KeyboardInterrupt "") (fun _ => SpawnExit 0)).
Proof.
  assert (H1 : "http://localhost:8000" <> "mock") by discriminate.
  assert (H2 : w_net (mkWorld (fun _ => 0) 0 739904 []
                        (fun _ => HttpFail KeyboardInterrupt "") (fun _ => SpawnExit 0))
                 ("http://localhost:8000" ++ "/stock/data")
               = HttpFail KeyboardInterrupt "") by reflexivity.
  assert (H3 : is_RequestException KeyboardInterrupt = false) by reflexivity.
  split; [exact H1 | split; [exact H2 | split; [exact H3 |]]].
  exact (get_stock_data_live_other_exception "http://localhost:8000" "demo-key"
           (mkStockRequest "AMZN" P1y None None)
           (mkWorld (fun _ => 0) 0 739904 [] (fun _ => HttpFail KeyboardInterrupt "")
                    (fun _ => SpawnExit 0)) KeyboardInterrupt "" H1 H2 H3).
Defined.

(** ** The generator: order of the dates and range of the prices *)

Lemma strongly_sorted_filter {A} (R : A -> A -> Prop) (f : A -> bool) (l : list A) :
  StronglySorted R l -> StronglySorted R (filter f l).
Proof.
  induction 1 as [| a l Hs IH Hall]; cbn [filter]; [constructor |].
  destruct (f a); [| exact IH].
  constructor; [exact IH |].
  apply Forall_forall. intros x Hx. apply filter_In in Hx as [Hx _].
  rewrite Forall_forall in Hall. apply Hall, Hx.
Qed.

Lemma strongly_sorted_shifted_seq (c : Z) (s k : nat) :
  StronglySorted Z.lt (map (fun i => c + Z.of_nat i) (seq s k)).
Proof.
  revert s. induction k as [| k IH]; intros s; cbn [seq map]; constructor.
  - apply IH.
  - apply Forall_forall. intros x Hx.
    apply in_map_iff in Hx as (i & <- & Hi). apply in_seq in Hi. lia.
Qed.

Lemma round2_units (a : Z) : round2 (a * UNIT) = 100 * a.
Proof.
  assert (HU : UNIT <> 0) by (unfold UNIT; lia).
  unfold round2.
  replace (a * UNIT * 100) with (100 * a * UNIT) by ring.
  rewrite Z.div_mul, Z.mod_mul by exact HU.
  replace (2 * 0 <? UNIT) with true by reflexivity. reflexivity.
Qed.

Ltac round2_bound a :=
  rewrite <- (round2_units a); apply round2_mono; unfold UNIT in *; lia.

(** The prices of one point, around the series' base price. *)
Lemma sample_point_band (base_price date : Z) (w : world) :
  exists p, sample_point base_price date w = (Ret p, advance w 5) /\
    100 * (base_price - 2) <= pt_open p <= 100 * (base_price + 2) /\
    100 * (base_price - 7) <= pt_close p <= 100 * (base_price + 7) /\
    pt_high p <= 100 * (base_price + 10) /\
    100 * (base_price - 10) <= pt_low p /\
    pt_adjusted_close p = pt_close p.
Proof.
  destruct w as [d n now0 log net spawn].
  eexists. split.
  { unfold sample_point, uniform, random_k, randint, draw, bind, ret, advance.
    cbn -[round2 UNIT Z.modulo Z.mul Z.add Z.sub Z.max Z.min].
    reflexivity. }
  assert (HU : 0 < UNIT) by (unfold UNIT; lia).
  pose proof (Z.mod_pos_bound (d n) UNIT HU).
  pose proof (Z.mod_pos_bound (d (S n)) UNIT HU).
  pose proof (Z.mod_pos_bound (d (S (S n))) UNIT HU).
  pose proof (Z.mod_pos_bound (d (S (S (S n)))) UNIT HU).
  cbn [pt_open pt_close pt_high pt_low pt_adjusted_close w_draws w_pos].
  split; [split |]; [round2_bound (base_price - 2) | round2_bound (base_price + 2) |].
  split; [split |]; [round2_bound (base_price - 7) | round2_bound (base_price + 7) |].
  split; [round2_bound (base_price + 10) |].
  split; [round2_bound (base_price - 10) | reflexivity].
Qed.

Lemma sample_loop_forall (Q : point -> Prop) (base_price : Z) (dates : list Z)
  (w : world) :
  (forall date w0, exists p, sample_point base_price date w0 = (Ret p, advance w0 5)
                             /\ Q p) ->
  exists ps,
    sample_loop base_price dates w = (Ret ps, advance w (5 * List.length ps)) /\
    Forall Q ps.
Proof.
  intros Hpt. revert w. induction dates as [| date rest IH]; intros w.
  - exists []. cbn. rewrite advance_0. auto.
  - cbn [sample_loop]. destruct (weekday date <? 5); [| apply IH].
    destruct (Hpt date w) as (p & Hp & Hq).
    destruct (IH (advance w 5)) as (ps & Hps & Hqs).
    exists (p :: ps). unfold bind at 1. rewrite Hp.
    unfold bind at 1. rewrite Hps. unfold ret.
    rewrite advance_advance. cbn [List.length]. split.
    + do 2 f_equal. lia.
    + constructor; assumption.
Qed.

(** All points of one series share a base price in [[80, 120]]. *)
Lemma create_sample_data_band_spec {P} (symbol : string) (period : P) (w : world) :
  exists ps base_price,
    create_sample_data symbol period w
    = (Ret (mkSample symbol period ps), advance w (1 + 5 * List.length ps)) /\
    80 <= base_price <= 120 /\
    Forall (fun p =>
              100 * (base_price - 2) <= pt_open p <= 100 * (base_price + 2) /\
              100 * (base_price - 7) <= pt_close p <= 100 * (base_price + 7) /\
              pt_high p <= 100 * (base_price + 10) /\
              100 * (base_price - 10) <= pt_low p /\
              pt_adjusted_close p = pt_close p) ps.
Proof.
  set (base := 100 + (-20 + w_draws w (w_pos w) mod (20 - -20 + 1))).
  destruct (sample_loop_forall _ base (loop_dates (w_now w - 365)) (advance w 1)
              (fun date w0 => sample_point_band base date w0))
    as (ps & Hps & Hqs).
  exists ps, base. split; [| split; [| exact Hqs]].
  - unfold create_sample_data, randint, draw, now, bind, ret.
    change (mkWorld (w_draws w) (S (w_pos w)) (w_now w) (w_log w) (w_net w)
                    (w_spawn w)) with (advance w 1).
    cbv beta iota.
    change (w_now (advance w 1)) with (w_now w).
    fold base. rewrite Hps. rewrite advance_advance. reflexivity.
  - pose proof (Z.mod_pos_bound (w_draws w (w_pos w)) (20 - -20 + 1) ltac:(lia)).
    unfold base. lia.
Qed.

Lemma Forall_last_n {A} (Q : A -> Prop) (n : nat) (l : list A) :
  Forall Q l -> Forall Q (last_n n l).
Proof.
  unfold last_n. intros H.
  rewrite <- (firstn_skipn (List.length l - n) l) in H.
  apply Forall_app in H as [_ H]. exact H.
Qed.

(** The dates of a generated series are strictly increasing: the points are
    in chronological order, oldest first, and no two share a date. *)
Theorem create_sample_data_dates_increasing {P} (symbol : string) (period : P)
  (w : world) :
  exists sd w',
    create_sample_data symbol period w = (Ret sd, w') /\
    StronglySorted Z.lt (map pt_date (sd_data sd)).
Proof.
  destruct (create_sample_data_spec symbol period w) as (ps & Hc & Hd & _).
  do 2 eexists. split; [exact Hc |]. cbn [sd_data]. rewrite Hd.
  apply strongly_sorted_filter. apply strongly_sorted_shifted_seq.
Qed.

(** Every price of a generated series stays near one base price drawn in
    [[80, 120]]: the open within 2, the close within 7, the high and low
    within 10 of it, so every price (open, high, low, close, adjusted close)
    lies in [[70.00, 130.00]]; and the adjusted close equals the close. *)
Theorem create_sample_data_price_band {P} (symbol : string) (period : P)
  (w : world) :
  exists sd w' base_price,
    create_sample_data symbol period w = (Ret sd, w') /\
    80 <= base_price <= 120 /\
    Forall (fun p =>
              100 * (base_price - 2) <= pt_open p <= 100 * (base_price + 2) /\
              100 * (base_price - 7) <= pt_close p <= 100 * (base_price + 7) /\
              100 * (base_price - 10) <= pt_high p <= 100 * (base_price + 10) /\
              100 * (base_price - 10) <= pt_low p <= 100 * (base_price + 10) /\
              Forall (fun x => 7000 <= x <= 13000)
                [pt_open p; pt_high p; pt_low p; pt_close p; pt_adjusted_close p] /\
              pt_adjusted_close p = pt_close p) (sd_data sd).
Proof.
  destruct (create_sample_data_band_spec symbol period w) as (ps & base & Hc & Hb & Hall).
  destruct (create_sample_data_spec symbol period w) as (ps' & Hc' & _ & Hok).
  rewrite Hc in Hc'. injection Hc' as <-.
  exists (mkSample symbol period ps), (advance w (1 + 5 * List.length ps)), base.
  split; [exact Hc | split; [exact Hb |]]. cbn [sd_data].
  rewrite Forall_forall in Hall, Hok |- *. intros p Hp.
  destruct (Hall p Hp) as (Ho & Hcl & Hh & Hl & Ha).
  destruct (Hok p Hp) as (Hmax & Hmin & _).
  rewrite Ha.
  pose proof (Z.le_max_l (pt_open p) (pt_close p)).
  pose proof (Z.le_max_r (pt_open p) (pt_close p)).
  pose proof (Z.le_min_l (pt_open p) (pt_close p)).
  pose proof (Z.le_min_r (pt_open p) (pt_close p)).
  split; [lia | split; [lia | split; [lia | split; [lia | split; [| reflexivity]]]]].
  repeat constructor; lia.
Qed.

(** On a series of the generator, mock-mode [get_technical_indicators]
    computes both moving averages (the series has more than 50 points, so
    neither falls back to [0]), and both lie in [[73.00, 127.00]]. *)
Theorem get_technical_indicators_on_sample {P} (symbol : string) (period : P)
  (api_key symbol' : string) (w w' w'' : world) (sd : sample_data P) :
  create_sample_data symbol period w = (Ret sd, w') ->
  exists sma_20 sma_50,
    get_technical_indicators (VantageMCPServer_init (mkConfig "mock" api_key))
      symbol' (sd_data sd) w''
    = (Ret (IDemo (456 # 10) (12 # 10) sma_20 sma_50), w'') /\
    (inject_Z 7300 <= sma_20 <= inject_Z 12700)%Q /\
    (inject_Z 7300 <= sma_50 <= inject_Z 12700)%Q.
Proof.
  intros Hsd.
  destruct (create_sample_data_band_spec symbol period w) as (ps & base & Hc & Hb & Hall).
  destruct (create_sample_data_spec symbol period w) as (ps' & Hc' & Hd & _).
  rewrite Hc in Hc'. injection Hc' as <-.
  rewrite Hc in Hsd. injection Hsd as <- _. cbn [sd_data].
  assert (Hlen : (178 <= List.length ps)%nat).
  { rewrite <- (length_map pt_date ps), Hd. apply loop_dates_weekday_count. }
  assert (Hcl : Forall (fun p => 7300 <= pt_close p <= 12700) ps).
  { rewrite Forall_forall in Hall |- *. intros p Hp.
    destruct (Hall p Hp) as (_ & Hcl & _). lia. }
  exists (sma 20 ps), (sma 50 ps). split; [reflexivity |].
  split; apply sma_bounds; try lia; apply Forall_last_n; exact Hcl.
Qed.

Lemma get_technical_indicators_on_sample_witness :
  exists sd w',
    create_sample_data "AMZN" P1y
      (mkWorld (fun n => Z.of_nat n) 0 739904 [] (fun _ => HttpResp 200 (BodyNotJson "Expecting value: line 1 column 1 (char 0)")) (fun _ => SpawnExit 0))
    = (Ret sd, w') /\
    exists sma_20 sma_50,
      get_technical_indicators (VantageMCPServer_init (mkConfig "mock" "demo-key"))
        "AMZN" (sd_data sd) w'
      = (Ret (IDemo (456 # 10) (12 # 10) sma_20 sma_50), w') /\
      (inject_Z 7300 <= sma_20 <= inject_Z 12700)%Q /\
      (inject_Z 7300 <= sma_50 <= inject_Z 12700)%Q.
Proof.
  destruct (create_sample_data_spec "AMZN" P1y
              (mkWorld (fun n => Z.of_nat n) 0 739904 [] (fun _ => HttpResp 200 (BodyNotJson "Expecting value: line 1 column 1 (char 0)"))
                       (fun _ => SpawnExit 0))) as (ps & Hc & _).
  exists (mkSample "AMZN" P1y ps), (advance (mkWorld (fun n => Z.of_nat n) 0 739904 []
                                     (fun _ => HttpResp 200 (BodyNotJson "Expecting value: line 1 column 1 (char 0)")) (fun _ => SpawnExit 0))
                                     (1 + 5 * List.length ps)).
  split; [exact Hc |].
  exact (get_technical_indicators_on_sample "AMZN" P1y "demo-key" "AMZN" _ _ _ _ Hc).
Defined.

(** ** The dashboard: the analysis call and the display of its result *)

Lemma upper_ascii_idem (c : Ascii.ascii) : upper_ascii (upper_ascii c) = upper_ascii c.
Proof.
  destruct c as [[] [] [] [] [] [] [] []]; vm_compute; reflexivity.
Qed.

Lemma upper_idem (s : string) : upper (upper s) = upper s.
Proof.
  induction s as [| c s IH]; cbn; [reflexivity |]. rewrite upper_ascii_idem, IH. reflexivity.
Qed.

Lemma upper_empty (s : string) : upper s = "" <-> s = "".
Proof. destruct s; cbn; split; congruence. Qed.

Lemma TimePeriod_value (p : time_period) (w : world) :
  TimePeriod (time_period_value p) w = (Ret p, w).
Proof. destruct p; reflexivity. Qed.

Lemma time_period_value_inj (p q : time_period) :
  time_period_value p = time_period_value q -> p = q.
Proof. destruct p, q; cbn; congruence. Qed.

Lemma lookup_period_TimePeriod (label : string) (w : world) :
  In label (map fst period_options) ->
  exists p, lookup_period label w = (Ret (time_period_value p), w).
Proof.
  cbn [map fst period_options In].
  intros [<- | [<- | [<- | [<- | [<- | [<- | [<- | [<- | []]]]]]]]];
    [exists P1d | exists P1w | exists P1m | exists P3m | exists P6m | exists P1y
    | exists P2y | exists P5y]; reflexivity.
Qed.

(** [analyze_stock] only lets exceptions outside [Exception] escape. *)
Lemma analyze_stock_raises_only_BaseException (ainvoke : dict -> PY dict)
  (symbol period : string) (start_date end_date : option string) (w w' : world) (e : exn) :
  analyze_stock ainvoke symbol period start_date end_date w = (Raise e, w') ->
  is_Exception (exc_cls e) = false.
Proof.
  unfold analyze_stock, try_except.
  match goal with
  | |- context [match ?m w with _ => _ end] => destruct (m w) as [[r | e0] w0]
  end; [discriminate |].
  destruct (is_Exception (exc_cls e0)) eqn:E; [discriminate |].
  intros H. injection H as <- _. exact E.
Qed.

Lemma run_analysis_result (ainvoke : dict -> PY dict) (isoformat : Z -> string)
  (symbol period start_date end_date : pyval) (w : world) :
  run_analysis ainvoke isoformat symbol period start_date end_date w
  = match analyze_stock ainvoke (py_str symbol) (py_str period)
            (date_arg isoformat start_date) (date_arg isoformat end_date) w with
    | (Ret r, w') => (Ret (Some r), w')
    | (Raise e, w') => (Raise e, w')
    end.
Proof.
  unfold run_analysis, try_except, bind at 1.
  destruct (analyze_stock _ _ _ _ _ w) as [[r | e] w'] eqn:E; [reflexivity |].
  rewrite (analyze_stock_raises_only_BaseException _ _ _ _ _ _ _ _ E). reflexivity.
Qed.

(** A click with a non-empty symbol sends one request to the pipeline and
    displays what comes back. *)
Lemma run_full_clicked_spec (ainvoke : dict -> PY dict) (isoformat : Z -> string)
  (display_results : pyval -> pyval -> pyval -> PY unit) (inp : ui_input) (w : world) :
  ui_analyze_clicked inp = true ->
  In (ui_period_label inp) (map fst period_options) ->
  (ui_use_custom inp = true -> ui_start inp < ui_end inp) ->
  ui_symbol inp <> "" ->
  exists p,
    lookup_period (ui_period_label inp) w = (Ret (time_period_value p), w) /\
    let dates := if ui_use_custom inp
                 then (Some (isoformat (ui_start inp)), Some (isoformat (ui_end inp)))
                 else (None, None) in
    let stock_request := mkStockRequest (upper (ui_symbol inp)) p (fst dates) (snd dates) in
    let show := handle_result display_results (PyBool (ui_show_volume inp))
                  (PyBool (ui_detailed inp)) in
    run_full ainvoke isoformat display_results inp w
    = match ainvoke (initial_state stock_request) w with
      | (Ret result, w') => show (Some result) w'
      | (Raise e, w') =>
          if is_Exception (exc_cls e)
          then show (Some [("error", PyStr ("Analysis failed: " ++ exc_str e))]) w'
          else (Raise e, w')
      end.
Proof.
  intros Hclick Hlabel Hdates Hsym.
  destruct (lookup_period_TimePeriod _ w Hlabel) as (p & Hp).
  exists p. split; [exact Hp |]. cbv zeta.
  unfold run_full, setup_sidebar, bind at 1 2. rewrite Hp.
  assert (Hrej : (ui_use_custom inp
                  && (truthy (fst (if ui_use_custom inp
                                   then (PyDate (ui_start inp), PyDate (ui_end inp))
                                   else (PyNone, PyNone)))
                      && truthy (snd (if ui_use_custom inp
                                      then (PyDate (ui_start inp), PyDate (ui_end inp))
                                      else (PyNone, PyNone))))
                  && (ui_end inp <=? ui_start inp)) = false).
  { destruct (ui_use_custom inp); [| reflexivity].
    cbn [fst snd truthy andb]. apply Z.leb_gt. apply Hdates. reflexivity. }
  assert (Hsym' : truthy (PyStr (upper (ui_symbol inp))) = true).
  { cbn [truthy]. apply negb_true_iff. apply String.eqb_neq.
    intros H. exact (Hsym (proj1 (upper_empty _) H)). }
  destruct (ui_use_custom inp) eqn:Hc;
    cbn [fst snd] in Hrej |- *; rewrite Hrej;
    cbv beta iota zeta delta [ret bind unpack7]; rewrite Hclick, Hsym';
    rewrite run_analysis_result;
    cbn [py_str date_arg];
    unfold analyze_stock, try_except, bind at 1; rewrite TimePeriod_value;
    cbv beta iota zeta; rewrite upper_idem; unfold bind at 1;
    match goal with
    | |- context [ainvoke ?st w] => destruct (ainvoke st w) as [[r | e] w']
    end;
    try reflexivity;
    destruct (is_Exception (exc_cls e)); reflexivity.
Qed.

(** With the button clicked, a non-empty symbol, a period label of the
    selector and no rejected date range, [run] sends the pipeline one
    request: the uppercased symbol, the period code of the label (which
    [TimePeriod] accepts) and the ISO dates of the custom range or [None];
    it then displays the pipeline's final state, or the error dict
    [analyze_stock] builds from an [Exception]; an exception outside
    [Exception] propagates.  The symbol is ASCII, where [upper] is
    Python's [str.upper]. *)
Theorem run_full_sends_request (ainvoke : dict -> PY dict) (isoformat : Z -> string)
  (display_results : pyval -> pyval -> pyval -> PY unit) (inp : ui_input) (w : world) :
  ui_analyze_clicked inp = true ->
  In (ui_period_label inp) (map fst period_options) ->
  (ui_use_custom inp = true -> ui_start inp < ui_end inp) ->
  ui_symbol inp <> "" ->
  is_ascii (ui_symbol inp) = true ->
  exists p,
    lookup_period (ui_period_label inp) w = (Ret (time_period_value p), w) /\
    let dates := if ui_use_custom inp
                 then (Some (isoformat (ui_start inp)), Some (isoformat (ui_end inp)))
                 else (None, None) in
    let stock_request := mkStockRequest (upper (ui_symbol inp)) p (fst dates) (snd dates) in
    let show := handle_result display_results (PyBool (ui_show_volume inp))
                  (PyBool (ui_detailed inp)) in
    run_full ainvoke isoformat display_results inp w
    = match ainvoke (initial_state stock_request) w with
      | (Ret result, w') => show (Some result) w'
      | (Raise e, w') =>
          if is_Exception (exc_cls e)
          then show (Some [("error", PyStr ("Analysis failed: " ++ exc_str e))]) w'
          else (Raise e, w')
      end.
Proof.
  intros H1 H2 H3 H4 _.
  exact (run_full_clicked_spec ainvoke isoformat display_results inp w H1 H2 H3 H4).
Qed.

Lemma run_full_sends_request_witness :
  let inp := mkUiInput "amzn" "1 Year" false 739539 739904 true true true true in
  let w := mkWorld (fun _ => 0) 0 739904 [] (fun _ => HttpResp 200 (BodyNotJson "Expecting value: line 1 column 1 (char 0)")) (fun _ => SpawnExit 0) in
  ui_analyze_clicked inp = true /\
  In (ui_period_label inp) (map fst period_options) /\
  (ui_use_custom inp = true -> ui_start inp < ui_end inp) /\
  ui_symbol inp <> "" /\
  is_ascii (ui_symbol inp) = true /\
  exists p,
    lookup_period (ui_period_label inp) w = (Ret (time_period_value p), w) /\
    let dates := if ui_use_custom inp
                 then (Some (z_str (ui_start inp)), Some (z_str (ui_end inp)))
                 else (None, None) in
    let stock_request := mkStockRequest (upper (ui_symbol inp)) p (fst dates) (snd dates) in
    let show := handle_result (fun _ _ _ => ret tt) (PyBool (ui_show_volume inp))
                  (PyBool (ui_detailed inp)) in
    run_full (fun st => ret st) z_str (fun _ _ _ => ret tt) inp w
    = match (fun st => ret st) (initial_state stock_request) w with
      | (Ret result, w') => show (Some result) w'
      | (Raise e, w') =>
          if is_Exception (exc_cls e)
          then show (Some [("error", PyStr ("Analysis failed: " ++ exc_str e))]) w'
          else (Raise e, w')
      end.
Proof.
  intros inp w.
  assert (H1 : ui_analyze_clicked inp = true) by reflexivity.
  assert (H2 : In (ui_period_label inp) (map fst period_options)) by (cbn; tauto).
  assert (H3 : ui_use_custom inp = true -> ui_start inp < ui_end inp) by discriminate.
  assert (H4 : ui_symbol inp <> "") by discriminate.
  assert (H5 : is_ascii (ui_symbol inp) = true) by reflexivity.
  split; [exact H1 | split; [exact H2 | split; [exact H3 | split; [exact H4 |
    split; [exact H5 |]]]]].
  exact (run_full_sends_request (fun st => ret st) z_str (fun _ _ _ => ret tt) inp w
           H1 H2 H3 H4 H5).
Defined.

(** [run_analysis] never reaches its own [except Exception] branch:
    [analyze_stock] already turns every [Exception] into an error dict, so
    [run_analysis] returns [analyze_stock]'s dict (never [None]) and never
    shows its own "Analysis failed" error; exceptions outside [Exception]
    pass through it unchanged. *)
Theorem run_analysis_except_unreachable (ainvoke : dict -> PY dict)
  (isoformat : Z -> string) (symbol period start_date end_date : pyval) (w : world) :
  run_analysis ainvoke isoformat symbol period start_date end_date w
  = match analyze_stock ainvoke (py_str symbol) (py_str period)
            (date_arg isoformat start_date) (date_arg isoformat end_date) w with
    | (Ret r, w') => (Ret (Some r), w')
    | (Raise e, w') => (Raise e, w')
    end.
Proof. exact (run_analysis_result ainvoke isoformat symbol period start_date end_date w). Qed.

Lemma dict_get_or_In (d : dict) (k : string) (v default : pyval) :
  NoDup (map fst d) -> In (k, v) d -> dict_get_or d k default = v.
Proof.
  unfold dict_get_or. induction d as [| [k' v'] d IH]; intros Hnd Hin; [destruct Hin |].
  cbn [map fst] in Hnd. inversion Hnd as [| ? ? Hk' Hnd']; subst.
  cbn [find fst]. destruct Hin as [Heq | Hin].
  - injection Heq as -> ->. rewrite String.eqb_refl. reflexivity.
  - destruct (String.eqb k' k) eqn:E.
    + apply String.eqb_eq in E. subst k'. exfalso. apply Hk'.
      apply (in_map fst) in Hin. exact Hin.
    + exact (IH Hnd' Hin).
Qed.

Lemma dict_truthy_In (d : dict) (k : string) (v : pyval) :
  In (k, v) d -> dict_truthy d = true.
Proof. destruct d; [intros [] | reflexivity]. Qed.

Lemma dict_get_or_present (d : dict) (k : string) (default : pyval) :
  truthy (dict_get d k) = true -> dict_get_or d k default = dict_get d k.
Proof.
  unfold dict_get, dict_get_or. destruct (find _ d) as [[k' v] |]; [reflexivity |].
  discriminate.
Qed.

(** The error shown for a failed analysis is ["Analysis failed: "] followed
    by the result's ["error"] value when it is truthy, and by
    ["Analysis failed"] when the result is [None] or an empty dict: the
    default ["Unknown error occurred"] of [result.get] is never used. *)
Theorem handle_result_error_message
  (display_results : pyval -> pyval -> pyval -> PY unit)
  (show_volume detailed_analysis : pyval) (w : world) :
  (forall r : dict, truthy (dict_get r "error") = true ->
     handle_result display_results show_volume detailed_analysis (Some r) w
     = emit (EvError ("Analysis failed: " ++ py_str (dict_get r "error"))) w) /\
  handle_result display_results show_volume detailed_analysis None w
  = emit (EvError "Analysis failed: Analysis failed") w /\
  handle_result display_results show_volume detailed_analysis (Some []) w
  = emit (EvError "Analysis failed: Analysis failed") w.
Proof.
  split; [| split; reflexivity].
  intros r Hr. unfold handle_result.
  assert (Hne : dict_truthy r = true) by (destruct r; [discriminate | reflexivity]).
  rewrite Hne, Hr. cbn [andb negb]. rewrite (dict_get_or_present _ _ _ Hr). reflexivity.
Qed.

(** An [Exception] raised by the pipeline on the request's initial state
    reaches the user with the prefix twice: [analyze_stock] returns
    ["Analysis failed: <message>"] as the error, and [run] shows
    ["Analysis failed: Analysis failed: <message>"]; nothing else is
    displayed.  The symbol is ASCII, where [upper] is Python's
    [str.upper]. *)
Theorem run_full_pipeline_exception (ainvoke : dict -> PY dict)
  (isoformat : Z -> string) (display_results : pyval -> pyval -> pyval -> PY unit)
  (inp : ui_input) (p : time_period) (w w' : world) (e : exn) :
  ui_analyze_clicked inp = true ->
  lookup_period (ui_period_label inp) w = (Ret (time_period_value p), w) ->
  (ui_use_custom inp = true -> ui_start inp < ui_end inp) ->
  ui_symbol inp <> "" ->
  is_ascii (ui_symbol inp) = true ->
  (let dates := if ui_use_custom inp
                then (Some (isoformat (ui_start inp)), Some (isoformat (ui_end inp)))
                else (None, None) in
   ainvoke (initial_state (mkStockRequest (upper (ui_symbol inp)) p (fst dates) (snd dates))) w
   = (Raise e, w')) ->
  is_Exception (exc_cls e) = true ->
  run_full ainvoke isoformat display_results inp w
  = (Ret tt, mkWorld (w_draws w') (w_pos w') (w_now w')
               (EvError ("Analysis failed: Analysis failed: " ++ exc_str e) :: w_log w')
               (w_net w') (w_spawn w')).
Proof.
  intros H1 Hp H3 H4 _ Hain He.
  assert (H2 : In (ui_period_label inp) (map fst period_options)).
  { revert Hp. unfold lookup_period.
    destruct (find (fun kv => String.eqb (fst kv) (ui_period_label inp)) period_options)
      as [[k v] |] eqn:Hf; [| discriminate].
    intros _. apply find_some in Hf as [Hin Hk]. cbn [fst] in Hk.
    apply String.eqb_eq in Hk. subst k. apply (in_map fst) in Hin. exact Hin. }
  destruct (run_full_clicked_spec ainvoke isoformat display_results inp w H1 H2 H3 H4)
    as (p0 & Hp0 & Hrun).
  rewrite Hp in Hp0. injection Hp0 as Hv. apply time_period_value_inj in Hv. subst p0.
  cbv zeta in Hrun, Hain. rewrite Hrun, Hain, He. reflexivity.
Qed.

Lemma run_full_pipeline_exception_witness :
  let inp := mkUiInput "amzn" "1 Year" false 739539 739904 true true true true in
  let w := mkWorld (fun _ => 0) 0 739904 []
             (fun _ => HttpResp 200 (BodyNotJson "Expecting value: line 1 column 1 (char 0)"))
             (fun _ => SpawnExit 0) in
  let ainvoke := fun _ : dict => raise (A := dict) KeyError "'close'" in
  ui_analyze_clicked inp = true /\
  lookup_period (ui_period_label inp) w = (Ret (time_period_value P1y), w) /\
  (ui_use_custom inp = true -> ui_start inp < ui_end inp) /\
  ui_symbol inp <> "" /\
  is_ascii (ui_symbol inp) = true /\
  ainvoke (initial_state (mkStockRequest "AMZN" P1y None None)) w
  = (Raise (mkExn KeyError "'close'"), w) /\
  is_Exception (exc_cls (mkExn KeyError "'close'")) = true /\
  run_full ainvoke z_str (fun _ _ _ => ret tt) inp w
  = (Ret tt, mkWorld (w_draws w) (w_pos w) (w_now w)
               (EvError ("Analysis failed: Analysis failed: "
                         ++ exc_str (mkExn KeyError "'close'")) :: w_log w)
               (w_net w) (w_spawn w)).
Proof.
  intros inp w ainvoke.
  assert (H1 : ui_analyze_clicked inp = true) by reflexivity.
  assert (H2 : lookup_period (ui_period_label inp) w = (Ret (time_period_value P1y), w))
    by reflexivity.
  assert (H3 : ui_use_custom inp = true -> ui_start inp < ui_end inp) by discriminate.
  assert (H4 : ui_symbol inp <> "") by discriminate.
  assert (H5 : is_ascii (ui_symbol inp) = true) by reflexivity.
  assert (H6 : ainvoke (initial_state (mkStockRequest "AMZN" P1y None None)) w
               = (Raise (mkExn KeyError "'close'"), w)) by reflexivity.
  assert (H7 : is_Exception (exc_cls (mkExn KeyError "'close'")) = true) by reflexivity.
  split; [exact H1 | split; [exact H2 | split; [exact H3 | split; [exact H4 |
    split; [exact H5 | split; [exact H6 | split; [exact H7 |]]]]]]].
  exact (run_full_pipeline_exception ainvoke z_str (fun _ _ _ => ret tt) inp P1y w w
           (mkExn KeyError "'close'") H1 H2 H3 H4 H5 H6 H7).
Defined.

(** A click with an empty symbol field only shows "Please enter a stock
    symbol": the pipeline is not run and nothing else changes. *)
Theorem run_full_empty_symbol (ainvoke : dict -> PY dict) (isoformat : Z -> string)
  (display_results : pyval -> pyval -> pyval -> PY unit) (inp : ui_input) (w : world) :
  ui_analyze_clicked inp = true ->
  In (ui_period_label inp) (map fst period_options) ->
  (ui_use_custom inp = true -> ui_start inp < ui_end inp) ->
  ui_symbol inp = "" ->
  run_full ainvoke isoformat display_results inp w
  = (Ret tt, mkWorld (w_draws w) (w_pos w) (w_now w)
               (EvError "Please enter a stock symbol" :: w_log w) (w_net w) (w_spawn w)).
Proof.
  intros Hclick Hlabel Hdates Hsym.
  destruct (lookup_period_known _ w Hlabel) as (v & Hv).
  unfold run_full, setup_sidebar, bind at 1 2. rewrite Hv, Hsym.
  destruct (ui_use_custom inp) eqn:Hc.
  - assert (Hlt : (ui_end inp <=? ui_start inp) = false)
      by (apply Z.leb_gt; apply Hdates; reflexivity).
    cbn [fst snd truthy andb]. rewrite Hlt. cbn [unpack7 ret].
    rewrite Hclick. reflexivity.
  - cbn [fst snd truthy andb unpack7 ret]. rewrite Hclick. reflexivity.
Qed.

Lemma run_full_empty_symbol_witness :
  let inp := mkUiInput "" "1 Year" true 739539 739904 true true true true in
  let w := mkWorld (fun _ => 0) 0 739904 [] (fun _ => HttpResp 200 (BodyNotJson "Expecting value: line 1 column 1 (char 0)")) (fun _ => SpawnExit 0) in
  ui_analyze_clicked inp = true /\
  In (ui_period_label inp) (map fst period_options) /\
  (ui_use_custom inp = true -> ui_start inp < ui_end inp) /\
  ui_symbol inp = "" /\
  run_full (fun st => ret st) z_str (fun _ _ _ => ret tt) inp w
  = (Ret tt, mkWorld (w_draws w) (w_pos w) (w_now w)
               (EvError "Please enter a stock symbol" :: w_log w) (w_net w) (w_spawn w)).
Proof.
  intros inp w.
  assert (H1 : ui_analyze_clicked inp = true) by reflexivity.
  assert (H2 : In (ui_period_label inp) (map fst period_options)) by (cbn; tauto).
  assert (H3 : ui_use_custom inp = true -> ui_start inp < ui_end inp) by (intros _; cbn; lia).
  assert (H4 : ui_symbol inp = "") by reflexivity.
  split; [exact H1 | split; [exact H2 | split; [exact H3 | split; [exact H4 |]]]].
  exact (run_full_empty_symbol (fun st => ret st) z_str (fun _ _ _ => ret tt) inp w
           H1 H2 H3 H4).
Defined.

(** ** The trend panel *)

(** A trends dict whose ["trend_direction"] holds [None] makes the panel
    fail after its title: [.upper()] is called on [None], which raises
    [AttributeError: 'NoneType' object has no attribute 'upper'] (the
    default ["unknown"] of [trends.get] only applies to a missing key). *)
Theorem display_trend_analysis_None_direction (a : stock_analysis) (detailed : bool) :
  NoDup (map fst (sa_trends a)) ->
  In ("trend_direction", PyNone) (sa_trends a) ->
  display_trend_analysis (Some a) detailed
  = AttributeError [StMarkdown "### 📈 Trend Analysis"]
      "'NoneType' object has no attribute 'upper'".
Proof.
  intros Hnd Hin. unfold display_trend_analysis.
  rewrite (dict_truthy_In _ _ _ Hin), (dict_get_or_In _ _ _ _ Hnd Hin). reflexivity.
Qed.

Lemma display_trend_analysis_None_direction_witness :
  NoDup (map fst (sa_trends (mkStockAnalysis "AMZN" "1y" []
                               [("volatility", PyStr "low"); ("trend_direction", PyNone)]))) /\
  In ("trend_direction", PyNone)
    (sa_trends (mkStockAnalysis "AMZN" "1y" []
                  [("volatility", PyStr "low"); ("trend_direction", PyNone)])) /\
  display_trend_analysis
    (Some (mkStockAnalysis "AMZN" "1y" []
             [("volatility", PyStr "low"); ("trend_direction", PyNone)])) true
  = AttributeError [StMarkdown "### 📈 Trend Analysis"]
      "'NoneType' object has no attribute 'upper'".
Proof.
  assert (H1 : NoDup (map fst (sa_trends (mkStockAnalysis "AMZN" "1y" []
                                 [("volatility", PyStr "low"); ("trend_direction", PyNone)]))))
    by (cbn; repeat constructor; cbn; intuition discriminate).
  assert (H2 : In ("trend_direction", PyNone)
                 (sa_trends (mkStockAnalysis "AMZN" "1y" []
                               [("volatility", PyStr "low"); ("trend_direction", PyNone)])))
    by (cbn; tauto).
  split; [exact H1 | split; [exact H2 |]].
  exact (display_trend_analysis_None_direction _ true H1 H2).
Defined.

(** With string values [d] for ["trend_direction"] and [v] for
    ["volatility"] (ASCII, where [upper] is Python's [str.upper]), the panel
    shows its title, the direction uppercased behind a marker chosen by
    comparing the raw value case-sensitively (green only for ["bullish"],
    red only for ["bearish"], white otherwise, e.g. for ["Bullish"]), the
    volatility uppercased, and the narrative in an expanded "Detailed Trend
    Analysis" section only when [detailed] is set and the narrative is
    truthy. *)
Theorem display_trend_analysis_strings (a : stock_analysis) (d v : string)
  (detailed : bool) :
  NoDup (map fst (sa_trends a)) ->
  In ("trend_direction", PyStr d) (sa_trends a) ->
  In ("volatility", PyStr v) (sa_trends a) ->
  is_ascii d = true -> is_ascii v = true ->
  display_trend_analysis (Some a) detailed
  = Drawn ([StMarkdown "### 📈 Trend Analysis";
            StMarkdown ("**Trend Direction:** "
                        ++ (if String.eqb d "bullish" then "🟢"
                            else if String.eqb d "bearish" then "🔴" else "⚪")
                        ++ " " ++ upper d);
            StMarkdown ("**Volatility:** " ++ upper v)]
           ++ (if detailed && truthy (dict_get (sa_trends a) "analysis")
               then [StExpander "Detailed Trend Analysis" true
                       [StMarkdown (py_str (dict_get (sa_trends a) "analysis"))]]
               else [])).
Proof.
  intros Hnd Hd Hv _ _. unfold display_trend_analysis.
  rewrite (dict_truthy_In _ _ _ Hd), (dict_get_or_In _ _ _ _ Hnd Hd),
    (dict_get_or_In _ _ _ _ Hnd Hv).
  cbn [negb py_upper py_eq_str].
  destruct (detailed && truthy (dict_get (sa_trends a) "analysis")); reflexivity.
Qed.

Lemma display_trend_analysis_strings_witness :
  NoDup (map fst (sa_trends (mkStockAnalysis "AMZN" "1y" []
                               [("volatility", PyStr "low");
                                ("trend_direction", PyStr "Bullish")]))) /\
  In ("trend_direction", PyStr "Bullish")
    (sa_trends (mkStockAnalysis "AMZN" "1y" []
                  [("volatility", PyStr "low"); ("trend_direction", PyStr "Bullish")])) /\
  In ("volatility", PyStr "low")
    (sa_trends (mkStockAnalysis "AMZN" "1y" []
                  [("volatility", PyStr "low"); ("trend_direction", PyStr "Bullish")])) /\
  is_ascii "Bullish" = true /\ is_ascii "low" = true /\
  display_trend_analysis
    (Some (mkStockAnalysis "AMZN" "1y" []
             [("volatility", PyStr "low"); ("trend_direction", PyStr "Bullish")])) true
  = Drawn ([StMarkdown "### 📈 Trend Analysis";
            StMarkdown ("**Trend Direction:** "
                        ++ (if String.eqb "Bullish" "bullish" then "🟢"
                            else if String.eqb "Bullish" "bearish" then "🔴" else "⚪")
                        ++ " " ++ upper "Bullish");
            StMarkdown ("**Volatility:** " ++ upper "low")]
           ++ (if true && truthy (dict_get [("volatility", PyStr "low");
                                            ("trend_direction", PyStr "Bullish")] "analysis")
               then [StExpander "Detailed Trend Analysis" true
                       [StMarkdown (py_str (dict_get [("volatility", PyStr "low");
                                                      ("trend_direction", PyStr "Bullish")]
                                              "analysis"))]]
               else [])).
Proof.
  assert (H1 : NoDup (map fst (sa_trends (mkStockAnalysis "AMZN" "1y" []
                                 [("volatility", PyStr "low");
                                  ("trend_direction", PyStr "Bullish")]))))
    by (cbn; repeat constructor; cbn; intuition discriminate).
  assert (H2 : In ("trend_direction", PyStr "Bullish")
                 (sa_trends (mkStockAnalysis "AMZN" "1y" []
                               [("volatility", PyStr "low");
                                ("trend_direction", PyStr "Bullish")]))) by (cbn; tauto).
  assert (H3 : In ("volatility", PyStr "low")
                 (sa_trends (mkStockAnalysis "AMZN" "1y" []
                               [("volatility", PyStr "low");
                                ("trend_direction", PyStr "Bullish")]))) by (cbn; tauto).
  assert (H4 : is_ascii "Bullish" = true) by reflexivity.
  assert (H5 : is_ascii "low" = true) by reflexivity.
  split; [exact H1 | split; [exact H2 | split; [exact H3 | split; [exact H4 |
    split; [exact H5 |]]]]].
  exact (display_trend_analysis_strings _ "Bullish" "low" true H1 H2 H3 H4 H5).
Defined.

(** The "Show Technical Indicators" toggle is read by [setup_sidebar] and
    returned in its tuple, but [run] never uses it: flipping it changes
    nothing in a run, its result or its effects. *)
Theorem run_full_ignores_show_technical (ainvoke : dict -> PY dict)
  (isoformat : Z -> string) (display_results : pyval -> pyval -> pyval -> PY unit)
  (inp : ui_input) (w : world) :
  run_full ainvoke isoformat display_results inp w
  = run_full ainvoke isoformat display_results
      (mkUiInput (ui_symbol inp) (ui_period_label inp) (ui_use_custom inp)
         (ui_start inp) (ui_end inp) (negb (ui_show_technical inp))
         (ui_show_volume inp) (ui_detailed inp) (ui_analyze_clicked inp)) w.
Proof.
  destruct inp as [sym label custom start end_ tech vol det click].
  unfold run_full, setup_sidebar, bind. cbn [ui_symbol ui_period_label
    ui_use_custom ui_start ui_end ui_show_technical ui_show_volume ui_detailed
    ui_analyze_clicked].
  destruct (lookup_period label w) as [[v | e] w1]; [| reflexivity].
  cbv beta iota zeta.
  destruct custom; cbn [fst snd truthy andb];
    [destruct (end_ <=? start); [reflexivity |] |];
    reflexivity.
Qed.
